(** * ranger.gui.ui: the curses front end of ranger

    A shallow embedding of [ranger/gui/ui.py] (class [UI]) and the
    properties of its terminal session, input decoder, key router and
    title computation.

    The curses library, the widget tree, the key buffer, the file manager
    and the settings are collaborators of [UI]; they are not part of the
    file.  Their data and operations are gathered in the class
    [Collaborators] over an abstract state [X].  Every call that [UI]
    makes on curses or on a collaborator is recorded, in program order,
    in the [trace] of the session, so that statements about order and
    about the number of calls can be made.

    Two limits of the model.  The collaborators act on their own state
    only: a hook or a command that calls back into the session is not
    described.  And of the collaborators only the function of a command
    can raise, as the [try] statement of [handle_key] expects; the hooks,
    the key buffer and the notification sink return. *)

From Stdlib Require Import ZArith List Bool String Ascii Lia.
Import ListNotations.
Local Open Scope Z_scope.

(** ** Python exceptions *)

(** What a [raise] can throw.  [except Exception] catches the instances of
    [Exception]; [SystemExit], [KeyboardInterrupt] and [GeneratorExit]
    derive from [BaseException] only. *)
Inductive BaseException : Type :=
| Exception (msg : string)
| SystemExit
| KeyboardInterrupt
| GeneratorExit.

Definition isinstance_Exception (e : BaseException) : bool :=
  match e with
  | Exception _ => true
  | _ => false
  end.

(** The outcome of calling a command's function on the collaborators'
    state: it returns, or it raises and leaves a state behind. *)
Inductive Outcome (X : Type) : Type :=
| Returned (x : X)
| Raised (e : BaseException) (x : X).
Arguments Returned {X} x.
Arguments Raised {X} e x.

(** The result of a method of [UI]: normal completion, or an exception
    that leaves the method. *)
Inductive Result (A : Type) : Type :=
| Normal (a : A)
| Propagated (e : BaseException) (a : A).
Arguments Normal {A} a.
Arguments Propagated {A} e a.

(** ** The terminal *)

(** The mode state that the curses calls of [UI] read and write.
    [halfdelay] is [Some t] while half-delay mode with a timeout of [t]
    tenths of a second is on; [cbreak()] and [nocbreak()] leave it.
    [can_curs_set] is the capability of the terminal: where it is [false],
    [curs_set] raises [curses.error]. *)
Record Terminal : Type := mkTerminal {
  leaveok : bool;
  keypad : bool;
  nodelay : bool;
  cbreak : bool;
  echo : bool;
  halfdelay : option Z;
  cursor : Z;
  colors : bool;
  mouse_mask : Z;
  mouse_interval : Z;
  isendwin : bool;
  can_curs_set : bool
}.

Definition truth (flag : Z) : bool := negb (flag =? 0).

(** How [getch] waits for a code.  Half-delay mode bounds the wait
    whatever the [nodelay] flag of the window says; without it the
    [nodelay] flag makes the read return at once. *)
Inductive ReadMode : Type :=
| Blocking
| Timed (tenths : Z)
| NonBlocking.

Definition read_mode (t : Terminal) : ReadMode :=
  match halfdelay t with
  | Some tenths => Timed tenths
  | None => if nodelay t then NonBlocking else Blocking
  end.

Module Curses.

Definition set_leaveok (f : Z) (t : Terminal) : Terminal :=
  mkTerminal (truth f) (keypad t) (nodelay t) (cbreak t) (echo t) (halfdelay t)
    (cursor t) (colors t) (mouse_mask t) (mouse_interval t) (isendwin t) (can_curs_set t).

Definition set_keypad (f : Z) (t : Terminal) : Terminal :=
  mkTerminal (leaveok t) (truth f) (nodelay t) (cbreak t) (echo t) (halfdelay t)
    (cursor t) (colors t) (mouse_mask t) (mouse_interval t) (isendwin t) (can_curs_set t).

Definition set_nodelay (f : Z) (t : Terminal) : Terminal :=
  mkTerminal (leaveok t) (keypad t) (truth f) (cbreak t) (echo t) (halfdelay t)
    (cursor t) (colors t) (mouse_mask t) (mouse_interval t) (isendwin t) (can_curs_set t).

(** [cbreak()], [nocbreak()] and [halfdelay(t)] *)
Definition set_cbreak (on : bool) (hd : option Z) (t : Terminal) : Terminal :=
  mkTerminal (leaveok t) (keypad t) (nodelay t) on (echo t) hd
    (cursor t) (colors t) (mouse_mask t) (mouse_interval t) (isendwin t) (can_curs_set t).

Definition set_echo (on : bool) (t : Terminal) : Terminal :=
  mkTerminal (leaveok t) (keypad t) (nodelay t) (cbreak t) on (halfdelay t)
    (cursor t) (colors t) (mouse_mask t) (mouse_interval t) (isendwin t) (can_curs_set t).

Definition set_cursor (v : Z) (t : Terminal) : Terminal :=
  mkTerminal (leaveok t) (keypad t) (nodelay t) (cbreak t) (echo t) (halfdelay t)
    v (colors t) (mouse_mask t) (mouse_interval t) (isendwin t) (can_curs_set t).

Definition set_colors (t : Terminal) : Terminal :=
  mkTerminal (leaveok t) (keypad t) (nodelay t) (cbreak t) (echo t) (halfdelay t)
    (cursor t) true (mouse_mask t) (mouse_interval t) (isendwin t) (can_curs_set t).

Definition set_mousemask (m : Z) (t : Terminal) : Terminal :=
  mkTerminal (leaveok t) (keypad t) (nodelay t) (cbreak t) (echo t) (halfdelay t)
    (cursor t) (colors t) m (mouse_interval t) (isendwin t) (can_curs_set t).

Definition set_mouseinterval (i : Z) (t : Terminal) : Terminal :=
  mkTerminal (leaveok t) (keypad t) (nodelay t) (cbreak t) (echo t) (halfdelay t)
    (cursor t) (colors t) (mouse_mask t) i (isendwin t) (can_curs_set t).

(** [endwin()] leaves curses mode; the next [refresh()] returns to it. *)
Definition set_isendwin (b : bool) (t : Terminal) : Terminal :=
  mkTerminal (leaveok t) (keypad t) (nodelay t) (cbreak t) (echo t) (halfdelay t)
    (cursor t) (colors t) (mouse_mask t) (mouse_interval t) b (can_curs_set t).

End Curses.

(** ** The trace of calls *)

Inductive Event : Type :=
(* window and curses calls *)
| win_leaveok (flag : Z)
| win_keypad (flag : Z)
| win_nodelay (flag : Z)
| win_getch (mode : ReadMode) (result : Z)
| win_getmaxyx
| win_touchwin
| win_refresh
| curses_cbreak
| curses_nocbreak
| curses_noecho
| curses_echo
| curses_halfdelay (tenths : Z)
| curses_curs_set (visibility : Z) (ok : bool)
| curses_start_color
| curses_use_default_colors
| curses_mousemask (mask : Z)
| curses_mouseinterval (interval : Z)
| curses_ungetmouse
| curses_endwin
| curses_flushinp
| stdout_write (text : string)
(* collaborator calls *)
| call_setup
| call_hint
| call_key_append (key : Z)
| call_press (key : Z) (consumed : bool)
| call_hide_bookmarks
| call_kbuf_clear
| call_function (raised : option BaseException)
| call_notify (error : BaseException)
| call_container_draw.

(** ** Strings *)

(** The operations of Python's [str] that [draw] uses, for a separator of
    one character ([os.sep] is "/"). *)
Module Str.

Local Open Scope string_scope.

Definition sep : ascii := "/"%char.

(** [s.startswith(p)] *)
Definition startswith (s p : string) : bool := String.prefix p s.

(** [s[n:]] *)
Fixpoint slice_from (n : nat) (s : string) : string :=
  match n, s with
  | O, _ => s
  | S n', String _ rest => slice_from n' rest
  | S _, EmptyString => EmptyString
  end.

Fixpoint reverse_onto (s acc : string) : string :=
  match s with
  | EmptyString => acc
  | String c rest => reverse_onto rest (String c acc)
  end.

Definition reverse (s : string) : string := reverse_onto s EmptyString.

(** The text before and after the leftmost [c], if [c] occurs. *)
Fixpoint cut (c : ascii) (s : string) : option (string * string) :=
  match s with
  | EmptyString => None
  | String a rest =>
      if Ascii.eqb a c then Some (EmptyString, rest)
      else match cut c rest with
           | Some (before, after) => Some (String a before, after)
           | None => None
           end
  end.

(** [s.split(c, maxsplit)] for [maxsplit >= 0] *)
Fixpoint split (c : ascii) (maxsplit : nat) (s : string) : list string :=
  match maxsplit with
  | O => [s]
  | S n =>
      match cut c s with
      | Some (before, after) => before :: split c n after
      | None => [s]
      end
  end.

(** [s.rsplit(c, maxsplit)]: the splits are taken from the right; a
    negative [maxsplit] puts no limit on them. *)
Definition rsplit (c : ascii) (maxsplit : Z) (s : string) : list string :=
  let n := if (maxsplit <? 0)%Z then String.length s else Z.to_nat maxsplit in
  rev (map reverse (split c n (reverse s))).

(** [c in s] *)
Fixpoint contains (c : ascii) (s : string) : bool :=
  match s with
  | EmptyString => false
  | String a rest => Ascii.eqb a c || contains c rest
  end.

(** [c.join(parts)] *)
Definition join (c : ascii) (parts : list string) : string :=
  String.concat (String c EmptyString) parts.

End Str.

(** ** The collaborators *)

(** [Cmd] is the type of the commands that the key buffer resolves;
    [cmd_function] is the attribute [cmd.function], absent or a callable
    that is run on the file manager.  [env_key_append] is
    [self.env.key_append(key)], the one call by which [handle_key] hands
    the key to the environment: the key buffer of the environment is what
    [handle_key] consults next, for the command resolved from the keys.
    [hint] is the optional attribute that [hasattr(self, 'hint')] tests. *)
Class Collaborators (X Cmd : Type) : Type := {
  (* curses constants *)
  ALL_MOUSE_EVENTS : Z;
  REPORT_MOUSE_POSITION : Z;
  (* self.settings *)
  settings_show_cursor : X -> bool;
  settings_flushinput : X -> bool;
  settings_update_title : X -> bool;
  settings_shorten_title : X -> Z;
  (* self.env *)
  env_home_path : X -> string;
  env_cwd_path : X -> string;
  env_key_append : Z -> X -> X;
  env_set_cmd : Cmd -> X -> X;
  env_set_termsize : X -> X;
  (* self.env.keybuffer *)
  kbuf_command : X -> option Cmd;
  kbuf_failure : X -> bool;
  kbuf_done : X -> bool;
  kbuf_clear : X -> X;
  cmd_function : Cmd -> option (X -> Outcome X);
  (* the widgets: DisplayableContainer and the subclass hooks *)
  hint : option (X -> X);
  press : Z -> X -> bool * X;
  container_draw : X -> X;
  setup : X -> X;
  (* self.fm *)
  fm_hide_bookmarks : X -> X;
  fm_notify : BaseException -> X -> X
}.

(** ** The session *)

Record UI (X : Type) : Type := mkUI {
  term : Terminal;
  is_set_up : bool;
  load_mode : bool;
  _draw_title : bool;
  pending : list Z;
  ext : X;
  trace : list Event
}.
Arguments mkUI {X}.
Arguments term {X} u.
Arguments is_set_up {X} u.
Arguments load_mode {X} u.
Arguments _draw_title {X} u.
Arguments pending {X} u.
Arguments ext {X} u.
Arguments trace {X} u.

Section Session.

Context {X Cmd : Type} `{W : Collaborators X Cmd}.

Definition log (e : Event) (s : UI X) : UI X :=
  mkUI (term s) (is_set_up s) (load_mode s) (_draw_title s) (pending s) (ext s)
    (trace s ++ [e]).

Definition on_term (f : Terminal -> Terminal) (s : UI X) : UI X :=
  mkUI (f (term s)) (is_set_up s) (load_mode s) (_draw_title s) (pending s) (ext s)
    (trace s).

Definition on_ext (f : X -> X) (s : UI X) : UI X :=
  mkUI (term s) (is_set_up s) (load_mode s) (_draw_title s) (pending s) (f (ext s))
    (trace s).

Definition set_is_set_up (b : bool) (s : UI X) : UI X :=
  mkUI (term s) b (load_mode s) (_draw_title s) (pending s) (ext s) (trace s).

Definition assign_load_mode (b : bool) (s : UI X) : UI X :=
  mkUI (term s) (is_set_up s) b (_draw_title s) (pending s) (ext s) (trace s).

Definition set_pending (q : list Z) (s : UI X) : UI X :=
  mkUI (term s) (is_set_up s) (load_mode s) (_draw_title s) q (ext s) (trace s).

(** A call on curses or on the window: the event and its effect on the
    terminal. *)
Definition tty (e : Event) (f : Terminal -> Terminal) (s : UI X) : UI X :=
  log e (on_term f s).

(** A call on a collaborator. *)
Definition collab (e : Event) (f : X -> X) (s : UI X) : UI X :=
  log e (on_ext f s).

(** [try: curses.curs_set(v) except: pass] *)
Definition try_curs_set (v : Z) (s : UI X) : UI X :=
  if can_curs_set (term s)
  then tty (curses_curs_set v true) (Curses.set_cursor v) s
  else log (curses_curs_set v false) s.

Definition mousemask : Z := Z.lor ALL_MOUSE_EVENTS REPORT_MOUSE_POSITION.

(** [update_size]: self.env.termsize = self.win.getmaxyx() *)
Definition update_size (s : UI X) : UI X :=
  collab win_getmaxyx env_set_termsize s.

(** [initialize] *)
Definition initialize (s : UI X) : UI X :=
  let s := tty (win_leaveok 0) (Curses.set_leaveok 0) s in
  let s := tty (win_keypad 1) (Curses.set_keypad 1) s in
  let s := assign_load_mode false s in
  let s := tty curses_cbreak (Curses.set_cbreak true None) s in
  let s := tty curses_noecho (Curses.set_echo false) s in
  let s := tty (curses_halfdelay 20) (Curses.set_cbreak true (Some 20)) s in
  let s := try_curs_set (Z.b2z (settings_show_cursor (ext s))) s in
  let s := tty curses_start_color Curses.set_colors s in
  let s := log curses_use_default_colors s in
  let s := tty (curses_mousemask mousemask) (Curses.set_mousemask mousemask) s in
  let s := tty (curses_mouseinterval 0) (Curses.set_mouseinterval 0) s in
  let s := log curses_ungetmouse s in
  let s := if negb (is_set_up s)
           then collab call_setup setup (set_is_set_up true s)
           else s in
  update_size s.

(** The curses calls of [initialize], up to the [setup] hook. *)
Definition initialize_calls (s : UI X) : list Event :=
  [win_leaveok 0; win_keypad 1; curses_cbreak; curses_noecho; curses_halfdelay 20;
   curses_curs_set (Z.b2z (settings_show_cursor (ext s))) (can_curs_set (term s));
   curses_start_color; curses_use_default_colors; curses_mousemask mousemask;
   curses_mouseinterval 0; curses_ungetmouse].

(** [suspend] *)
Definition suspend (s : UI X) : UI X :=
  let s := tty (win_keypad 0) (Curses.set_keypad 0) s in
  let s := tty curses_nocbreak (Curses.set_cbreak false None) s in
  let s := tty curses_echo (Curses.set_echo true) s in
  let s := try_curs_set 1 s in
  let s := tty (curses_mousemask 0) (Curses.set_mousemask 0) s in
  tty curses_endwin (Curses.set_isendwin true) s.

(** [set_load_mode] *)
Definition set_load_mode (boolean : bool) (s : UI X) : UI X :=
  if negb (Bool.eqb boolean (load_mode s)) then
    let s := assign_load_mode boolean s in
    if boolean then
      let s := tty curses_cbreak (Curses.set_cbreak true None) s in
      tty (win_nodelay 1) (Curses.set_nodelay 1) s
    else
      let s := tty (win_nodelay 0) (Curses.set_nodelay 0) s in
      tty (curses_halfdelay 20) (Curses.set_cbreak true (Some 20)) s
  else s.

(** ** The key router *)

(** The head of [handle_key]: the optional [hint] hook, the recording of
    the key by [env.key_append], and the offer of the key to the widget
    tree.  The boolean is what [press] answered. *)
Definition offer_key (key : Z) (s : UI X) : bool * UI X :=
  let s := match hint with
           | Some h => collab call_hint h s
           | None => s
           end in
  let s := collab (call_key_append key) (env_key_append key) s in
  let (consumed, x) := press key (ext s) in
  (consumed, collab (call_press key consumed) (fun _ => x) s).

(** [if kbuf.done: kbuf.clear()] *)
Definition clear_if_done (s : UI X) : UI X :=
  if kbuf_done (ext s) then collab call_kbuf_clear kbuf_clear s else s.

(** The [try]/[except Exception] around the call of [cmd.function],
    followed by the conditional clear. *)
Definition execute (f : X -> Outcome X) (s : UI X) : Result (UI X) :=
  match f (ext s) with
  | Returned x =>
      Normal (clear_if_done (collab (call_function None) (fun _ => x) s))
  | Raised error x =>
      let s := collab (call_function (Some error)) (fun _ => x) s in
      if isinstance_Exception error
      then Normal (clear_if_done (collab (call_notify error) (fm_notify error) s))
      else Propagated error s
  end.

(** The body of [handle_key] after [press] declined the key: the
    resolved command is read, the bookmarks are hidden, and the key
    buffer decides what follows. *)
Definition route (s : UI X) : Result (UI X) :=
  let cmd := kbuf_command (ext s) in
  let s := collab call_hide_bookmarks fm_hide_bookmarks s in
  if kbuf_failure (ext s) then Normal (collab call_kbuf_clear kbuf_clear s) else
  match cmd with
  | None => Normal s
  | Some c =>
      let s := on_ext (env_set_cmd c) s in
      match cmd_function c with
      | Some f => execute f s
      | None => Normal (collab call_kbuf_clear kbuf_clear s)
      end
  end.

(** [handle_key] *)
Definition handle_key (key : Z) (s : UI X) : Result (UI X) :=
  let (consumed, s) := offer_key key s in
  if consumed then Normal s else route s.

(** ** The input decoder *)

(** [self.win.getch()]: the next code of the device, or -1 when none is
    waiting.  The event records the read mode in which the call is made;
    a read that finds nothing answers -1 in every mode (in half-delay
    mode, which [initialize] sets, when the timeout has passed). *)
Definition getch (s : UI X) : Z * UI X :=
  match pending s with
  | [] => (-1, log (win_getch (read_mode (term s)) (-1)) s)
  | k :: rest => (k, log (win_getch (read_mode (term s)) k) (set_pending rest s))
  end.

(** [curses.flushinp()] throws away what is waiting. *)
Definition flushinp (s : UI X) : UI X :=
  log curses_flushinp (set_pending [] s).

(** [for n in range(8): getkey = getch(); if getkey is not -1: keys.append(getkey)] *)
Fixpoint probe (n : nat) (keys : list Z) (s : UI X) : list Z * UI X :=
  match n with
  | O => (keys, s)
  | S n' =>
      let (getkey, s) := getch s in
      probe n' (if getkey =? -1 then keys else keys ++ [getkey]) s
  end.

(** [for key in keys: self.handle_key(key)] *)
Fixpoint replay (keys : list Z) (s : UI X) : Result (UI X) :=
  match keys with
  | [] => Normal s
  | key :: rest =>
      match handle_key key s with
      | Normal s => replay rest s
      | Propagated e s => Propagated e s
      end
  end.

Definition is_lead (key : Z) : bool := (key =? 27) || (key =? 195).

(** [handle_input] *)
Definition handle_input (s : UI X) : Result (UI X) :=
  let (key, s) := getch s in
  if is_lead key then
    let keys := [key] in
    let previous_load_mode := load_mode s in
    let s := set_load_mode true s in
    let (keys, s) := probe 8 keys s in
    match replay keys s with
    | Normal s => Normal (set_load_mode previous_load_mode s)
    | Propagated e s => Propagated e s
    end
  else
    let s := if settings_flushinput (ext s) then flushinp s else s in
    if key >? 0 then handle_key key s else Normal s.

(** ** The render pipeline *)

(** The path that [draw] puts in the title: [cwd] with the home prefix
    replaced by "~", then cut to its last [shorten_title] segments when
    more than those are there. *)
Definition title_path (cwd home_path : string) (shorten_title : Z) : string :=
  let cwd := if Str.startswith cwd home_path
             then String "~"%char (Str.slice_from (String.length home_path) cwd)
             else cwd in
  if truth shorten_title then
    let split := Str.rsplit Str.sep shorten_title cwd in
    if Str.contains Str.sep (hd EmptyString split)
    then Str.join Str.sep (tl split)
    else cwd
  else cwd.

(** The escape sequence written to standard output: ESC ] 2 ; ranger:
    path BEL. *)
Definition title_sequence (path : string) : string :=
  (String (ascii_of_nat 27) "]2;ranger:" ++ path ++ String (ascii_of_nat 7) "")%string.

(** [draw] *)
Definition draw (s : UI X) : UI X :=
  let s := log win_touchwin s in
  let s := collab call_container_draw container_draw s in
  let s :=
    if _draw_title s && settings_update_title (ext s) then
      let cwd := title_path (env_cwd_path (ext s)) (env_home_path (ext s))
                   (settings_shorten_title (ext s)) in
      log (stdout_write (title_sequence cwd)) s
    else s in
  tty win_refresh (Curses.set_isendwin false) s.

(** ** The life of a session *)

(** The methods that the main loop and the commands call on the session. *)
Inductive Method : Type :=
| Initialize
| Suspend
| SetLoadMode (boolean : bool)
| HandleKey (key : Z)
| HandleInput
| Draw
| UpdateSize.

Definition call (m : Method) (s : UI X) : Result (UI X) :=
  match m with
  | Initialize => Normal (initialize s)
  | Suspend => Normal (suspend s)
  | SetLoadMode boolean => Normal (set_load_mode boolean s)
  | HandleKey key => handle_key key s
  | HandleInput => handle_input s
  | Draw => Normal (draw s)
  | UpdateSize => Normal (update_size s)
  end.

(** A sequence of calls; an exception that leaves one of them ends it. *)
Fixpoint lifetime (ms : list Method) (s : UI X) : Result (UI X) :=
  match ms with
  | [] => Normal s
  | m :: rest =>
      match call m s with
      | Normal s => lifetime rest s
      | Propagated e s => Propagated e s
      end
  end.

Definition is_Initialize (m : Method) : bool :=
  match m with Initialize => true | _ => false end.


End Session.

(** ** Reading a trace *)

(** The keys that [handle_key] received, in order: each call of
    [handle_key] hands its key to [env.key_append] once. *)
Definition keys_handled (tr : list Event) : list Z :=
  flat_map (fun e => match e with call_key_append key => [key] | _ => [] end) tr.

(** The errors given to [fm.notify], in order. *)
Definition notified (tr : list Event) : list BaseException :=
  flat_map (fun e => match e with call_notify error => [error] | _ => [] end) tr.

(** The reads of the device, in order: the mode of each and its result. *)
Definition reads (tr : list Event) : list (ReadMode * Z) :=
  flat_map (fun e => match e with win_getch m r => [(m, r)] | _ => [] end) tr.

(** What [n] reads in a row answer when [queue] is waiting. *)
Definition answers (n : nat) (queue : list Z) : list Z :=
  firstn n queue ++ repeat (-1) (n - List.length queue).

Definition is_setup (e : Event) : bool :=
  match e with call_setup => true | _ => false end.

Definition is_kbuf_clear (e : Event) : bool :=
  match e with call_kbuf_clear => true | _ => false end.

Definition is_function (e : Event) : bool :=
  match e with call_function _ => true | _ => false end.

(** How many events of a trace satisfy [p]. *)
Definition count (p : Event -> bool) (tr : list Event) : nat :=
  List.length (filter p tr).

(** The events that a call added to the trace [before]. *)
Definition added (before after : list Event) : list Event :=
  skipn (List.length before) after.

Definition is_key (code : Z) : bool := negb (code =? -1).



(** The state in which a call ended, normally or not. *)
Definition state_of {A : Type} (r : Result A) : A :=
  match r with
  | Normal a => a
  | Propagated _ a => a
  end.

(** ** Statements about a session *)

Section Statements.

Context {X Cmd : Type} `{W : Collaborators X Cmd}.


(** "It first offers the key to the widget tree's press(); otherwise it
    appends the key into the KeyBuffer": a key that [press] consumes is
    not appended, that is [handle_key] has not called [env.key_append]
    on it. *)
Definition consumed_key_not_appended (key : Z) (s : UI X) : Prop :=
  fst (offer_key key s) = true ->
  forall s', handle_key key s = Normal s' ->
  ~ In (call_key_append key) (added (trace s) (trace s')).

(** "If executing a resolved command's function raises an exception, the
    exception does not propagate past handle_key and the notification
    sink receives one report of it", for whatever is raised. *)
Definition raised_exception_is_reported (key : Z) (s : UI X) : Prop :=
  forall (s1 : UI X) (c : Cmd) (f : X -> Outcome X) (error : BaseException) (x : X),
    offer_key key s = (false, s1) ->
    kbuf_failure (fm_hide_bookmarks (ext s1)) = false ->
    kbuf_command (ext s1) = Some c ->
    cmd_function c = Some f ->
    f (env_set_cmd c (fm_hide_bookmarks (ext s1))) = Raised error x ->
    exists s' : UI X,
      handle_key key s = Normal s' /\
      notified (trace s') = notified (trace s) ++ [error].

(** No command lets out an exception that [except Exception] does not
    catch. *)
Definition commands_raise_only_Exception : Prop :=
  forall (c : Cmd) (f : X -> Outcome X) (x x' : X) (e : BaseException),
    cmd_function c = Some f -> f x = Raised e x' -> isinstance_Exception e = true.

(** The state of the collaborators when [press] is called: after the
    [hint] hook, if there is one, and after [env.key_append]. *)
Definition recorded (key : Z) (x : X) : X :=
  env_key_append key (match hint with Some h => h x | None => x end).

(** While the load-mode flag is set, reads do not block. *)
Definition load_mode_polls (s : UI X) : Prop :=
  load_mode s = true -> read_mode (term s) = NonBlocking.

(** The latch and the number of calls of [setup] are those of [s]. *)
Definition latch_kept (s s' : UI X) : Prop :=
  is_set_up s' = is_set_up s /\
  count is_setup (trace s') = count is_setup (trace s).

(** What the key router leaves alone: the terminal, the latch, the load
    mode, the device, and in the trace the reads and the calls of
    [setup]. *)
Definition kept_by_router (s s' : UI X) : Prop :=
  term s' = term s /\
  is_set_up s' = is_set_up s /\
  load_mode s' = load_mode s /\
  pending s' = pending s /\
  reads (trace s') = reads (trace s) /\
  count is_setup (trace s') = count is_setup (trace s).

End Statements.

(** ** A concrete set of collaborators *)

(** A small file manager on which the session can be run: a key buffer
    with a keymap of seven bindings, a widget that consumes the tab key,
    and the settings and paths that [UI] reads. *)
Module Mock.

Inductive Binding : Type :=
| move_down      (* the function returns *)
| broken         (* the function raises Exception *)
| quit           (* the function raises SystemExit *)
| unbound.       (* a command without a function *)

Record KeyBuffer : Type := mkKeyBuffer {
  keys : list Z;
  failure : bool;
  done : bool;
  command : option Binding
}.

Record Fm : Type := mkFm {
  keybuffer : KeyBuffer;
  cmd : option Binding;
  bookmarks_open : bool;
  notifications : list BaseException;
  moves : nat;
  widgets : bool;
  termsize : bool;
  cwd : string;
  home_path : string;
  shorten_title : Z;
  update_title : bool;
  flushinput : bool;
  show_cursor : bool
}.

Definition with_keybuffer (f : KeyBuffer -> KeyBuffer) (x : Fm) : Fm :=
  mkFm (f (keybuffer x)) (cmd x) (bookmarks_open x) (notifications x) (moves x)
    (widgets x) (termsize x) (cwd x) (home_path x) (shorten_title x)
    (update_title x) (flushinput x) (show_cursor x).

(** The keymap: j, x, X, q, n, g and gg. *)
Definition resolve (ks : list Z) : KeyBuffer :=
  match ks with
  | [106] => mkKeyBuffer ks false true (Some move_down)
  | [120] => mkKeyBuffer ks false true (Some broken)
  | [88] => mkKeyBuffer ks false false (Some broken)
  | [113] => mkKeyBuffer ks false true (Some quit)
  | [110] => mkKeyBuffer ks false false (Some unbound)
  | [103] => mkKeyBuffer ks false false None
  | [103; 103] => mkKeyBuffer ks false true (Some move_down)
  | _ => mkKeyBuffer ks true false None
  end.

(** [env.key_append]: the key joins the keys of the buffer, which
    resolves the sequence against the keymap. *)
Definition key_append (key : Z) (x : Fm) : Fm :=
  with_keybuffer (fun kb => resolve (keys kb ++ [key])) x.

(** [kbuf.clear()] *)
Definition clear (x : Fm) : Fm :=
  with_keybuffer (fun _ => mkKeyBuffer [] false false None) x.

Definition set_cmd (c : Binding) (x : Fm) : Fm :=
  mkFm (keybuffer x) (Some c) (bookmarks_open x) (notifications x) (moves x)
    (widgets x) (termsize x) (cwd x) (home_path x) (shorten_title x)
    (update_title x) (flushinput x) (show_cursor x).

Definition hide_bookmarks (x : Fm) : Fm :=
  mkFm (keybuffer x) (cmd x) false (notifications x) (moves x)
    (widgets x) (termsize x) (cwd x) (home_path x) (shorten_title x)
    (update_title x) (flushinput x) (show_cursor x).

Definition notify (error : BaseException) (x : Fm) : Fm :=
  mkFm (keybuffer x) (cmd x) (bookmarks_open x) (notifications x ++ [error]) (moves x)
    (widgets x) (termsize x) (cwd x) (home_path x) (shorten_title x)
    (update_title x) (flushinput x) (show_cursor x).

Definition move (x : Fm) : Fm :=
  mkFm (keybuffer x) (cmd x) (bookmarks_open x) (notifications x) (S (moves x))
    (widgets x) (termsize x) (cwd x) (home_path x) (shorten_title x)
    (update_title x) (flushinput x) (show_cursor x).

Definition make_widgets (x : Fm) : Fm :=
  mkFm (keybuffer x) (cmd x) (bookmarks_open x) (notifications x) (moves x)
    true (termsize x) (cwd x) (home_path x) (shorten_title x)
    (update_title x) (flushinput x) (show_cursor x).

Definition set_termsize (x : Fm) : Fm :=
  mkFm (keybuffer x) (cmd x) (bookmarks_open x) (notifications x) (moves x)
    (widgets x) true (cwd x) (home_path x) (shorten_title x)
    (update_title x) (flushinput x) (show_cursor x).

Definition run (c : Binding) : option (Fm -> Outcome Fm) :=
  match c with
  | move_down => Some (fun x => Returned (move x))
  | broken => Some (fun x => Raised (Exception "boom") x)
  | quit => Some (fun x => Raised SystemExit x)
  | unbound => None
  end.

#[global] Instance collaborators : Collaborators Fm Binding := {
  ALL_MOUSE_EVENTS := 268435455;
  REPORT_MOUSE_POSITION := 268435456;
  settings_show_cursor := show_cursor;
  settings_flushinput := flushinput;
  settings_update_title := update_title;
  settings_shorten_title := shorten_title;
  env_home_path := home_path;
  env_cwd_path := cwd;
  env_key_append := key_append;
  env_set_cmd := set_cmd;
  env_set_termsize := set_termsize;
  kbuf_command := fun x => command (keybuffer x);
  kbuf_failure := fun x => failure (keybuffer x);
  kbuf_done := fun x => done (keybuffer x);
  kbuf_clear := clear;
  cmd_function := run;
  hint := None;
  press := fun key x => (key =? 9, x);
  container_draw := fun x => x;
  setup := make_widgets;
  fm_hide_bookmarks := hide_bookmarks;
  fm_notify := notify
}.

Definition fm : Fm :=
  mkFm (mkKeyBuffer [] false false None) None true [] 0 false false
    "/home/alice/a/b/c/d" "/home/alice" 2 true false true.

Definition terminal : Terminal :=
  mkTerminal false false false false true None 1 false 0 0 false true.

(** The session as [__init__] leaves it, with [queue] waiting on the
    device. *)
Definition session (queue : list Z) : UI Fm :=
  mkUI terminal false false true queue fm [].

(** The session after the first [initialize]. *)
Definition started (queue : list Z) : UI Fm := initialize (session queue).

(** Twenty codes waiting behind the lead code: the letters a to t. *)
Definition twenty : list Z :=
  [97; 98; 99; 100; 101; 102; 103; 104; 105; 106;
   107; 108; 109; 110; 111; 112; 113; 114; 115; 116].

Definition escape_twenty : list Z := 27 :: twenty.

(** The session after [handle_input] has read from [queue]. *)
Definition after_input (queue : list Z) : UI Fm :=
  state_of (handle_input (started queue)).

(** The session after [handle_key] on [key]. *)
Definition after_key (key : Z) : UI Fm :=
  state_of (handle_key key (started [])).

(** The session when [press] has answered. *)
Definition offered (key : Z) : UI Fm := snd (offer_key key (started [])).

(** The file manager when the function of the command [c] is called. *)
Definition at_call (key : Z) (c : Binding) : Fm :=
  set_cmd c (hide_bookmarks (ext (offered key))).


End Mock.

(** ** Further readings of a trace and of a path *)

Definition is_stdout_write (e : Event) : bool :=
  match e with stdout_write _ => true | _ => false end.

Definition is_hide_bookmarks (e : Event) : bool :=
  match e with call_hide_bookmarks => true | _ => false end.

Definition is_Draw (m : Method) : bool :=
  match m with Draw => true | _ => false end.

(** [s.count(c)] *)
Fixpoint occurrences (c : ascii) (s : string) : nat :=
  match s with
  | EmptyString => O
  | String a rest => ((if Ascii.eqb a c then 1 else 0) + occurrences c rest)%nat
  end.

(** The first step of [title_path]: the home prefix replaced by "~". *)
Definition collapse_home (cwd home_path : string) : string :=
  if Str.startswith cwd home_path
  then String "~"%char (Str.slice_from (String.length home_path) cwd)
  else cwd.

(** The text [head], a separator, and the text [tail]. *)
Definition joined (head tail : string) : string :=
  (head ++ String Str.sep tail)%string.

(** The pieces before the last one, each followed by the separator [c],
    and the last piece. *)
Fixpoint glue (c : ascii) (pieces : list string) (last : string) : string :=
  match pieces with
  | [] => last
  | p :: rest => (p ++ String c (glue c rest last))%string
  end.

Section FurtherStatements.

Context {X Cmd : Type} `{W : Collaborators X Cmd}.

(** The state in which [handle_input] handles an ordinary key: after the
    read and, where the setting asks for it, the flush. *)
Definition after_read (s : UI X) : UI X :=
  let s := snd (getch s) in
  if settings_flushinput (ext s) then flushinp s else s.

(** The title capability and the number of writes to standard output are
    those of [s]. *)
Definition title_kept (s s' : UI X) : Prop :=
  _draw_title s' = _draw_title s /\
  count is_stdout_write (trace s') = count is_stdout_write (trace s).

End FurtherStatements.

(** The number of calls of [draw] in a sequence. *)
Definition draws (ms : list Method) : nat :=
  List.length (filter is_Draw ms).

(** ** Further sessions on the concrete collaborators *)

Module MockMore.

Import Mock.

(** The settings with the flush of stale input on. *)
Definition flushing_fm : Fm :=
  mkFm (mkKeyBuffer [] false false None) None true [] 0 false false
    "/home/alice/a/b/c/d" "/home/alice" 2 true true true.

Definition flushing (queue : list Z) : UI Fm :=
  initialize (mkUI terminal false false true queue flushing_fm []).

(** A session on a terminal without a title. *)
Definition untitled (queue : list Z) : UI Fm :=
  mkUI terminal false false false queue fm [].

(** A life that the key q ends: the second [initialize] is not reached. *)
Definition cut_short : list Method :=
  [Initialize; Draw; HandleKey 113; Initialize; Draw].

(** A life with two calls of [draw]. *)
Definition two_draws : list Method :=
  [Initialize; Draw; HandleKey 106; SetLoadMode true; HandleInput; Draw; Suspend].

End MockMore.

(** ** Commands that call the session, curses calls that fail *)

(** The session described so far is closed: its collaborators act on
    their own state, and of curses only [curs_set] fails.  The code is
    more open than that.  [cmd.function] is called with the file manager,
    through which a command reaches the session: the comment in
    [initialize] names the actions that suspend and re-initialize the UI,
    and the loader switches the load mode.  And a curses call that the
    terminal refuses raises [curses.error], an instance of [Exception]:
    [use_default_colors()] does on a terminal without colours.  The
    module [Full] describes the same methods in these surroundings, which
    a [Host] gathers; with the [closed_host] they are the methods
    above. *)

(** The methods of the session that a command calls. *)
Inductive Callback : Type :=
| ui_initialize
| ui_suspend
| ui_set_load_mode (boolean : bool).

(** What the function of a command does, from the state [x] of the
    collaborators that it has reached: it returns, it raises, or it calls
    the method [m] of the session and goes on from the collaborators as
    that call left them. *)
Inductive Script (X : Type) : Type :=
| Return (x : X)
| Raise (e : BaseException) (x : X)
| Ui (x : X) (m : Callback) (k : X -> Script X).
Arguments Return {X} x.
Arguments Raise {X} e x.
Arguments Ui {X} x m k.

(** A function that does not call the session. *)
Definition script_of {X : Type} (o : Outcome X) : Script X :=
  match o with
  | Returned x => Return x
  | Raised e x => Raise e x
  end.

(** [refuses t e] tells whether the terminal, in the state [t], refuses
    the curses call [e], which then raises [curses.error] and has no
    effect; [cmd_script] is [cmd.function]. *)
Record Host (X Cmd : Type) : Type := mkHost {
  refuses : Terminal -> Event -> bool;
  cmd_script : Cmd -> option (X -> Script X)
}.
Arguments mkHost {X Cmd}.
Arguments refuses {X Cmd} h t e.
Arguments cmd_script {X Cmd} h c.

(** The surroundings of the closed session. *)
Definition closed_host {X Cmd : Type} `{W : Collaborators X Cmd} : Host X Cmd :=
  mkHost (fun _ _ => false)
    (fun c => option_map (fun f x => script_of (f x)) (cmd_function c)).

(** [curses.KEY_MOUSE], the code that [ungetmouse] pushes onto the input
    queue. *)
Definition KEY_MOUSE : Z := 409.

(** [_curses.error], which derives from [Exception]. *)
Definition curses_error : BaseException := Exception "curses.error".

Module Full.

Section Full.

Context {X Cmd : Type} `{W : Collaborators X Cmd}.

Variable h : Host X Cmd.

(** A statement after a call that may raise is reached when the call
    returned. *)
Definition and_then (r : Result (UI X)) (k : UI X -> Result (UI X)) : Result (UI X) :=
  match r with
  | Normal s => k s
  | Propagated e s => Propagated e s
  end.

Local Notation "s <- r ;; k" := (and_then r (fun s => k))
  (at level 61, r at next level, right associativity).

(** A call on curses or on the window whose result Python checks: the
    terminal refuses it and [curses.error] is raised, or it has its
    effect. *)
Definition checked (e : Event) (f : Terminal -> Terminal) (s : UI X) : Result (UI X) :=
  if refuses h (term s) e then Propagated curses_error s else Normal (tty e f s).

(** [curses.ungetmouse(0,0,0,0,0)]: a mouse event is pushed onto the
    input queue, where the next read finds the code [KEY_MOUSE]. *)
Definition ungetmouse (s : UI X) : Result (UI X) :=
  if refuses h (term s) curses_ungetmouse then Propagated curses_error s
  else Normal (log curses_ungetmouse (set_pending (KEY_MOUSE :: pending s) s)).

(** [initialize]; [curses.mousemask] answers the masks and raises
    nothing. *)
Definition initialize (s : UI X) : Result (UI X) :=
  s <- checked (win_leaveok 0) (Curses.set_leaveok 0) s ;;
  s <- checked (win_keypad 1) (Curses.set_keypad 1) s ;;
  let s := assign_load_mode false s in
  s <- checked curses_cbreak (Curses.set_cbreak true None) s ;;
  s <- checked curses_noecho (Curses.set_echo false) s ;;
  s <- checked (curses_halfdelay 20) (Curses.set_cbreak true (Some 20)) s ;;
  let s := try_curs_set (Z.b2z (settings_show_cursor (ext s))) s in
  s <- checked curses_start_color Curses.set_colors s ;;
  s <- checked curses_use_default_colors (fun t => t) s ;;
  let s := tty (curses_mousemask mousemask) (Curses.set_mousemask mousemask) s in
  s <- checked (curses_mouseinterval 0) (Curses.set_mouseinterval 0) s ;;
  s <- ungetmouse s ;;
  let s := if negb (is_set_up s)
           then collab call_setup setup (set_is_set_up true s)
           else s in
  Normal (update_size s).

(** [suspend] *)
Definition suspend (s : UI X) : Result (UI X) :=
  s <- checked (win_keypad 0) (Curses.set_keypad 0) s ;;
  s <- checked curses_nocbreak (Curses.set_cbreak false None) s ;;
  s <- checked curses_echo (Curses.set_echo true) s ;;
  let s := try_curs_set 1 s in
  let s := tty (curses_mousemask 0) (Curses.set_mousemask 0) s in
  checked curses_endwin (Curses.set_isendwin true) s.

(** [set_load_mode]: the flag is assigned before the calls on curses. *)
Definition set_load_mode (boolean : bool) (s : UI X) : Result (UI X) :=
  if negb (Bool.eqb boolean (load_mode s)) then
    let s := assign_load_mode boolean s in
    if boolean then
      s <- checked curses_cbreak (Curses.set_cbreak true None) s ;;
      checked (win_nodelay 1) (Curses.set_nodelay 1) s
    else
      s <- checked (win_nodelay 0) (Curses.set_nodelay 0) s ;;
      checked (curses_halfdelay 20) (Curses.set_cbreak true (Some 20)) s
  else Normal s.

(** A method of the session called by a command. *)
Definition call_back (m : Callback) (s : UI X) : Result (UI X) :=
  match m with
  | ui_initialize => initialize s
  | ui_suspend => suspend s
  | ui_set_load_mode boolean => set_load_mode boolean s
  end.

(** The function of a command run on the session.  What a method of the
    session raises leaves the function that called it. *)
Fixpoint play (p : Script X) (s : UI X) : Result (UI X) :=
  match p with
  | Return x => Normal (on_ext (fun _ => x) s)
  | Raise e x => Propagated e (on_ext (fun _ => x) s)
  | Ui x m k =>
      match call_back m (on_ext (fun _ => x) s) with
      | Normal s => play (k (ext s)) s
      | Propagated e s => Propagated e s
      end
  end.

(** The [try]/[except Exception] around the call of [cmd.function],
    followed by the conditional clear.  The event [call_function] is
    recorded when the function is left, after the calls that it made. *)
Definition execute (f : X -> Script X) (s : UI X) : Result (UI X) :=
  match play (f (ext s)) s with
  | Normal s => Normal (clear_if_done (log (call_function None) s))
  | Propagated error s =>
      let s := log (call_function (Some error)) s in
      if isinstance_Exception error
      then Normal (clear_if_done (collab (call_notify error) (fm_notify error) s))
      else Propagated error s
  end.

Definition route (s : UI X) : Result (UI X) :=
  let cmd := kbuf_command (ext s) in
  let s := collab call_hide_bookmarks fm_hide_bookmarks s in
  if kbuf_failure (ext s) then Normal (collab call_kbuf_clear kbuf_clear s) else
  match cmd with
  | None => Normal s
  | Some c =>
      let s := on_ext (env_set_cmd c) s in
      match cmd_script h c with
      | Some f => execute f s
      | None => Normal (collab call_kbuf_clear kbuf_clear s)
      end
  end.

(** [handle_key] *)
Definition handle_key (key : Z) (s : UI X) : Result (UI X) :=
  let (consumed, s) := offer_key key s in
  if consumed then Normal s else route s.

(** [for key in keys: self.handle_key(key)] *)
Fixpoint replay (keys : list Z) (s : UI X) : Result (UI X) :=
  match keys with
  | [] => Normal s
  | key :: rest =>
      s <- handle_key key s ;;
      replay rest s
  end.

(** [handle_input] *)
Definition handle_input (s : UI X) : Result (UI X) :=
  let (key, s) := getch s in
  if is_lead key then
    let keys := [key] in
    let previous_load_mode := load_mode s in
    s <- set_load_mode true s ;;
    let (keys, s) := probe 8 keys s in
    s <- replay keys s ;;
    set_load_mode previous_load_mode s
  else
    let s := if settings_flushinput (ext s) then flushinp s else s in
    if key >? 0 then handle_key key s else Normal s.

(** [draw] *)
Definition draw (s : UI X) : Result (UI X) :=
  s <- checked win_touchwin (fun t => t) s ;;
  let s := collab call_container_draw container_draw s in
  let s :=
    if _draw_title s && settings_update_title (ext s) then
      let cwd := title_path (env_cwd_path (ext s)) (env_home_path (ext s))
                   (settings_shorten_title (ext s)) in
      log (stdout_write (title_sequence cwd)) s
    else s in
  checked win_refresh (Curses.set_isendwin false) s.

Definition call (m : Method) (s : UI X) : Result (UI X) :=
  match m with
  | Initialize => initialize s
  | Suspend => suspend s
  | SetLoadMode boolean => set_load_mode boolean s
  | HandleKey key => handle_key key s
  | HandleInput => handle_input s
  | Draw => draw s
  | UpdateSize => Normal (update_size s)
  end.

(** A sequence of calls; an exception that leaves one of them ends it. *)
Fixpoint lifetime (ms : list Method) (s : UI X) : Result (UI X) :=
  match ms with
  | [] => Normal s
  | m :: rest =>
      s <- call m s ;;
      lifetime rest s
  end.

End Full.

End Full.

(** ** Statements about a session in its surroundings *)

Section FullStatements.

Context {X Cmd : Type} `{W : Collaborators X Cmd}.

Variable h : Host X Cmd.

(** The session when the replay of a lookahead starts: after the read of
    the lead code, [set_load_mode(True)] and the eight reads. *)
Definition after_lookahead (s : UI X) : UI X :=
  snd (probe 8 [hd (-1) (pending s)] (set_load_mode true (snd (getch s)))).

(** "handle_input delivers through handle_key exactly the lead code
    followed by the follow-up codes", of every call. *)
Definition lookahead_always_replayed (s : UI X) : Prop :=
  forall (lead : Z) (rest : list Z),
    pending s = lead :: rest ->
    lead = 27 \/ lead = 195 ->
    keys_handled (trace (state_of (Full.handle_input h s))) =
      keys_handled (trace s) ++ lead :: filter is_key (firstn 8 rest).

(** "It restores the prior load-mode state" and "delivers the entire
    collected sequence", of every call. *)
Definition sequence_replayed_and_mode_restored (s : UI X) : Prop :=
  forall (lead : Z) (rest : list Z),
    pending s = lead :: rest ->
    lead = 27 \/ lead = 195 ->
    keys_handled (trace (state_of (Full.handle_input h s))) =
      keys_handled (trace s) ++ lead :: filter is_key (firstn 8 rest) /\
    load_mode (state_of (Full.handle_input h s)) = load_mode s.

(** "Across N calls to initialize(), for all N >= 1, the one-time setup()
    hook fires exactly once", of every terminal. *)
Definition setup_fires_once_across (N : nat) (s : UI X) : Prop :=
  (1 <= N)%nat ->
  is_set_up s = false ->
  count is_setup (trace (state_of (Full.lifetime h (repeat Initialize N) s))) =
    (count is_setup (trace s) + 1)%nat.

(** "For every call to handle_input that completes normally, the
    load-mode flag after the call equals the load-mode flag before the
    call", of every key. *)
Definition load_mode_kept_by_handle_input (s : UI X) : Prop :=
  forall s', Full.handle_input h s = Normal s' -> load_mode s' = load_mode s.

(** Between [s] and [s'] the calls [evs] were made: [ks] are the keys
    handed to [env.key_append] among them and [rs] the reads, and the
    latch was set by the one call among them that ran [setup], if any. *)
Definition adds (ks : list Z) (rs : list (ReadMode * Z)) (s s' : UI X) : Prop :=
  exists evs : list Event,
    trace s' = trace s ++ evs /\
    keys_handled evs = ks /\
    reads evs = rs /\
    (count is_setup evs + (if is_set_up s then 1 else 0)
     = (if is_set_up s' then 1 else 0))%nat.

End FullStatements.

(** [sys.maxsize]: [str.rsplit] takes its [maxsplit] as a [Py_ssize_t]
    and raises [OverflowError] on an integer outside of it, so that
    [draw] writes no title then.  A depth of zero does not reach
    [rsplit]. *)
Definition title_path_checked (maxsize : Z) (cwd home_path : string) (shorten_title : Z)
    : option string :=
  if truth shorten_title
     && ((shorten_title <? - maxsize - 1) || (maxsize <? shorten_title))
  then None
  else Some (title_path cwd home_path shorten_title).

(** ** Concrete surroundings *)

Module MockHosts.

Import Mock.

(** The command of the key j as a command that opens the file under the
    cursor: the session is suspended for the program that shows the file
    and initialized again when it has ended. *)
Definition open_file (x : Fm) : Script Fm :=
  Ui x ui_suspend (fun x => Ui x ui_initialize (fun x => Return (move x))).

(** The collaborators with that command, on a terminal that refuses
    nothing. *)
Definition reopening : Host Fm Binding :=
  mkHost (fun _ _ => false)
    (fun c => match c with
              | move_down => Some open_file
              | _ => cmd_script closed_host c
              end).

(** A terminal without colours: [use_default_colors()] raises. *)
Definition colourless : Host Fm Binding :=
  mkHost (fun _ e => match e with curses_use_default_colors => true | _ => false end)
    (cmd_script closed_host).

(** The session after its first [initialize] and the call of
    [handle_input] that reads the mouse event pushed by [initialize];
    [queue] is waiting on the device. *)
Definition ready (h : Host Fm Binding) (queue : list Z) : UI Fm :=
  state_of (Full.handle_input h (state_of (Full.initialize h (session queue)))).

(** The same session in load mode. *)
Definition loading (h : Host Fm Binding) (queue : list Z) : UI Fm :=
  state_of (Full.set_load_mode h true (ready h queue)).

(** The session after [handle_input] has read from [queue]. *)
Definition after_input (h : Host Fm Binding) (s : UI Fm) : UI Fm :=
  state_of (Full.handle_input h s).

End MockHosts.

(** * Properties *)

(** ** Traces *)

Lemma keys_handled_app (a b : list Event) :
  keys_handled (a ++ b) = keys_handled a ++ keys_handled b.
Proof. apply flat_map_app. Qed.

Lemma notified_app (a b : list Event) :
  notified (a ++ b) = notified a ++ notified b.
Proof. apply flat_map_app. Qed.

Lemma reads_app (a b : list Event) : reads (a ++ b) = reads a ++ reads b.
Proof. apply flat_map_app. Qed.

Lemma count_app (p : Event -> bool) (a b : list Event) :
  count p (a ++ b) = (count p a + count p b)%nat.
Proof. unfold count. now rewrite filter_app, length_app. Qed.

Lemma added_app (before new : list Event) : added before (before ++ new) = new.
Proof.
  unfold added. rewrite skipn_app, skipn_all, Nat.sub_diag. reflexivity.
Qed.

Lemma answers_nil (n : nat) : answers n [] = repeat (-1) n.
Proof. unfold answers. now rewrite firstn_nil, Nat.sub_0_r. Qed.

Lemma answers_cons (n : nat) (k : Z) (queue : list Z) :
  answers (S n) (k :: queue) = k :: answers n queue.
Proof. reflexivity. Qed.


Create Rewrite HintDb trace.
#[local] Hint Rewrite keys_handled_app notified_app reads_app count_app : trace.

(** Normalises the observations of a trace that ends in known events. *)
Ltac trace_simpl :=
  cbn; autorewrite with trace; unfold count;
  rewrite ?filter_app, ?length_app, <- ?app_assoc; cbn;
  rewrite ?app_nil_r, ?Nat.add_0_r.

Section Properties.

Context {X Cmd : Type} `{W : Collaborators X Cmd}.

Lemma kept_by_router_refl (s : UI X) : kept_by_router s s.
Proof. repeat split. Qed.

Lemma kept_by_router_trans (s1 s2 s3 : UI X) :
  kept_by_router s1 s2 -> kept_by_router s2 s3 -> kept_by_router s1 s3.
Proof.
  intros (A1 & A2 & A3 & A4 & A5 & A6) (B1 & B2 & B3 & B4 & B5 & B6).
  repeat split; congruence.
Qed.

(** *** The terminal session *)

Lemma initialize_trace (s : UI X) :
  trace (initialize s) =
  trace s ++ initialize_calls s
    ++ (if is_set_up s then [] else [call_setup]) ++ [win_getmaxyx].
Proof.
  destruct s as [t latch lm dt q x tr].
  unfold initialize, initialize_calls, try_curs_set, update_size. cbn.
  destruct (can_curs_set t); cbn; destruct latch; cbn;
    repeat rewrite <- app_assoc; reflexivity.
Qed.

Lemma initialize_latch (s : UI X) : is_set_up (initialize s) = true.
Proof.
  destruct s as [t latch lm dt q x tr].
  unfold initialize, try_curs_set, update_size. cbn.
  destruct (can_curs_set t); cbn; destruct latch; cbn; auto.
Qed.

Lemma initialize_setups (s : UI X) :
  count is_setup (trace (initialize s)) =
  (count is_setup (trace s) + (if is_set_up s then 0 else 1))%nat.
Proof.
  rewrite initialize_trace. autorewrite with trace.
  destruct (is_set_up s); reflexivity.
Qed.

(** Calls of [initialize] that follow one another at once. *)
Lemma setup_once_back_to_back (N : nat) (s : UI X) :
  is_set_up s = false ->
  count is_setup (trace (Nat.iter (S N) initialize s)) =
    (count is_setup (trace s) + 1)%nat.
Proof.
  intros Hs. rewrite Nat.iter_succ_r.
  assert (H : forall n u, is_set_up u = true ->
            is_set_up (Nat.iter n initialize u) = true /\
            count is_setup (trace (Nat.iter n initialize u)) = count is_setup (trace u)).
  { induction n as [|n IH]; intros u Hu; [auto|].
    rewrite Nat.iter_succ. destruct (IH u Hu) as [IHl IHc].
    split; [apply initialize_latch|].
    rewrite initialize_setups, IHl, IHc. lia. }
  destruct (H N (initialize s) (initialize_latch s)) as [_ Hc].
  rewrite Hc, initialize_setups, Hs. reflexivity.
Qed.

(** C9.  Every call of [initialize] leaves the load-mode flag false,
    whatever it was, and the terminal in half-delay mode: reads wait for
    a code for 20 tenths of a second at most, whatever the [nodelay]
    flag was left at. *)
Theorem initialize_resets_load_mode (s : UI X) :
  load_mode (initialize s) = false /\
  cbreak (term (initialize s)) = true /\
  halfdelay (term (initialize s)) = Some 20 /\
  read_mode (term (initialize s)) = Timed 20.
Proof.
  destruct s as [t latch lm dt q x tr].
  unfold initialize, try_curs_set, update_size. cbn.
  destruct (can_curs_set t); cbn; destruct latch; cbn; auto.
Qed.

(** C8.  [suspend] is idempotent on the terminal modes: a second call
    right after the first leaves the terminal as the first left it, that
    is keypad off, cooked mode, echo on, no mouse reporting, curses mode
    left, and the cursor visible where the terminal can set it. *)
Theorem suspend_idempotent (s : UI X) :
  term (suspend (suspend s)) = term (suspend s) /\
  keypad (term (suspend s)) = false /\
  cbreak (term (suspend s)) = false /\
  halfdelay (term (suspend s)) = None /\
  echo (term (suspend s)) = true /\
  mouse_mask (term (suspend s)) = 0 /\
  isendwin (term (suspend s)) = true /\
  cursor (term (suspend s)) = (if can_curs_set (term s) then 1 else cursor (term s)).
Proof.
  destruct s as [t latch lm dt q x tr].
  unfold suspend, try_curs_set. cbn.
  destruct (can_curs_set t) eqn:E; cbn; rewrite ?E; cbn; repeat split.
Qed.

(** *** The key router *)

(** What [offer_key] adds to the trace. *)
Lemma offer_key_trace (key : Z) (s : UI X) :
  trace (snd (offer_key key s)) =
  trace s ++ (match hint with Some _ => [call_hint] | None => [] end)
    ++ [call_key_append key; call_press key (fst (offer_key key s))].
Proof.
  destruct s as [t latch lm dt q x tr]. unfold offer_key.
  destruct hint as [h|]; cbn.
  - destruct (press key (env_key_append key (h x))) as [consumed x']; cbn.
    now rewrite <- !app_assoc.
  - destruct (press key (env_key_append key x)) as [consumed x']; cbn.
    now rewrite <- !app_assoc.
Qed.

Lemma offer_key_ext (key : Z) (s : UI X) :
  ext (snd (offer_key key s)) = snd (press key (recorded key (ext s))) /\
  fst (offer_key key s) = fst (press key (recorded key (ext s))).
Proof.
  destruct s as [t latch lm dt q x tr]. unfold offer_key, recorded.
  destruct hint as [h|]; cbn;
    match goal with |- context [press key ?y] => destruct (press key y) end;
    cbn; auto.
Qed.

Lemma offer_key_frame (key : Z) (s : UI X) :
  kept_by_router s (snd (offer_key key s)) /\
  keys_handled (trace (snd (offer_key key s))) = keys_handled (trace s) ++ [key] /\
  notified (trace (snd (offer_key key s))) = notified (trace s) /\
  count is_kbuf_clear (trace (snd (offer_key key s))) = count is_kbuf_clear (trace s) /\
  count is_function (trace (snd (offer_key key s))) = count is_function (trace s).
Proof.
  unfold kept_by_router. rewrite offer_key_trace.
  destruct s as [t latch lm dt q x tr]. unfold offer_key.
  destruct hint as [h|]; cbn;
    match goal with |- context [press key ?y] => destruct (press key y) end;
    trace_simpl; auto 12.
Qed.

Lemma execute_frame (f : X -> Outcome X) (s : UI X) :
  kept_by_router s (state_of (execute f s)) /\
  keys_handled (trace (state_of (execute f s))) = keys_handled (trace s).
Proof.
  destruct s as [t latch lm dt q x tr]. unfold kept_by_router, execute, clear_if_done.
  cbn. destruct (f x) as [x'|error x']; cbn.
  - destruct (kbuf_done x'); trace_simpl; auto 10.
  - destruct (isinstance_Exception error); cbn;
      [destruct (kbuf_done (fm_notify error x'))|]; trace_simpl; auto 10.
Qed.

Lemma route_frame (s : UI X) :
  kept_by_router s (state_of (route s)) /\
  keys_handled (trace (state_of (route s))) = keys_handled (trace s).
Proof.
  unfold route.
  destruct (kbuf_failure _).
  { destruct s; unfold kept_by_router; trace_simpl; auto 10. }
  destruct (kbuf_command (ext s)) as [c|].
  2: { destruct s; unfold kept_by_router; trace_simpl; auto 10. }
  destruct (cmd_function c) as [f|].
  2: { destruct s; unfold kept_by_router; trace_simpl; auto 10. }
  match goal with |- context [execute f ?u] => destruct (execute_frame f u) as (Hf & Hk) end.
  rewrite Hk. split.
  - eapply kept_by_router_trans; [|exact Hf].
    destruct s; unfold kept_by_router; trace_simpl; auto 10.
  - destruct s; trace_simpl; auto.
Qed.

(** [handle_key] hands its key to [env.key_append] once and leaves the
    terminal, the device and the flags of the session alone, whether it
    completes or not. *)
Lemma handle_key_frame (key : Z) (s : UI X) :
  kept_by_router s (state_of (handle_key key s)) /\
  keys_handled (trace (state_of (handle_key key s))) = keys_handled (trace s) ++ [key].
Proof.
  unfold handle_key.
  destruct (offer_key_frame key s) as (Hf & Hk & _).
  destruct (offer_key key s) as [consumed s1]. cbn [fst snd] in *.
  destruct consumed; cbn [state_of]; [auto|].
  destruct (route_frame s1) as (Rf & Rk). rewrite Rk, Hk. split; [|reflexivity].
  eapply kept_by_router_trans; eassumption.
Qed.

(** *** The input decoder *)

Lemma getch_spec (s : UI X) :
  fst (getch s) = hd (-1) (pending s) /\
  pending (snd (getch s)) = tl (pending s) /\
  term (snd (getch s)) = term s /\
  is_set_up (snd (getch s)) = is_set_up s /\
  load_mode (snd (getch s)) = load_mode s /\
  ext (snd (getch s)) = ext s /\
  keys_handled (trace (snd (getch s))) = keys_handled (trace s) /\
  reads (trace (snd (getch s))) =
    reads (trace s) ++ [(read_mode (term s), fst (getch s))] /\
  count is_setup (trace (snd (getch s))) = count is_setup (trace s).
Proof.
  destruct s as [t latch lm dt q x tr]. unfold getch.
  destruct q as [|k q]; trace_simpl; auto 10.
Qed.

Lemma set_load_mode_spec (b : bool) (s : UI X) :
  load_mode (set_load_mode b s) = b /\
  pending (set_load_mode b s) = pending s /\
  ext (set_load_mode b s) = ext s /\
  is_set_up (set_load_mode b s) = is_set_up s /\
  trace (set_load_mode b s) =
    trace s ++ (if Bool.eqb b (load_mode s) then []
                else if b then [curses_cbreak; win_nodelay 1]
                else [win_nodelay 0; curses_halfdelay 20]).
Proof.
  destruct s as [t latch lm dt q x tr]. unfold set_load_mode.
  destruct b, lm; cbn; rewrite ?app_nil_r, <- ?app_assoc; auto.
Qed.


Lemma set_load_mode_quiet (b : bool) (s : UI X) :
  keys_handled (trace (set_load_mode b s)) = keys_handled (trace s) /\
  reads (trace (set_load_mode b s)) = reads (trace s) /\
  count is_setup (trace (set_load_mode b s)) = count is_setup (trace s).
Proof.
  destruct (set_load_mode_spec b s) as (_ & _ & _ & _ & Ht). rewrite Ht.
  autorewrite with trace.
  destruct (Bool.eqb b (load_mode s)), b; cbn; rewrite ?app_nil_r; auto with arith.
Qed.

(** Entering load mode leaves reads non-blocking, from every state in
    which the flag and the terminal agree. *)
Lemma set_load_mode_polls (s : UI X) :
  load_mode_polls s -> read_mode (term (set_load_mode true s)) = NonBlocking.
Proof.
  destruct s as [t latch lm dt q x tr]. unfold load_mode_polls, set_load_mode. cbn.
  destruct lm; cbn; auto.
Qed.

(** The lookahead loop: [n] reads in the mode of the terminal, of which
    the codes other than -1 are collected in order. *)
Lemma probe_spec (n : nat) : forall (keys : list Z) (s : UI X),
  fst (probe n keys s) = keys ++ filter is_key (firstn n (pending s)) /\
  term (snd (probe n keys s)) = term s /\
  is_set_up (snd (probe n keys s)) = is_set_up s /\
  load_mode (snd (probe n keys s)) = load_mode s /\
  ext (snd (probe n keys s)) = ext s /\
  keys_handled (trace (snd (probe n keys s))) = keys_handled (trace s) /\
  reads (trace (snd (probe n keys s))) =
    reads (trace s) ++ map (pair (read_mode (term s))) (answers n (pending s)) /\
  count is_setup (trace (snd (probe n keys s))) = count is_setup (trace s).
Proof.
  induction n as [|n IH]; intros keys s; cbn [probe].
  - cbn. rewrite !app_nil_r. auto 10.
  - destruct (getch_spec s) as (Hk & Hp & Ht & Hl & Hm & Hx & Hh & Hr & Hc).
    destruct (getch s) as [getkey s1]. cbn [fst snd] in *.
    destruct (IH (if getkey =? -1 then keys else keys ++ [getkey]) s1)
      as (Ik & It & Il & Im & Ix & Ih & Ir & Ic).
    rewrite Ik, It, Il, Im, Ix, Ih, Ir, Ic, Hp, Ht, Hl, Hm, Hx, Hh, Hr, Hc.
    rewrite <- app_assoc. subst getkey.
    destruct (pending s) as [|k q]; cbn [hd tl firstn].
    + rewrite !answers_nil, firstn_nil. cbn. auto 10.
    + rewrite answers_cons. cbn [filter map app]. unfold is_key at 2.
      destruct (k =? -1); cbn [negb]; rewrite <- ?app_assoc; auto 10.
Qed.

(** The replay loop: the keys handled are a prefix of the keys collected,
    and all of them when no call of [handle_key] lets an exception out. *)
Lemma replay_spec (keys : list Z) : forall (s : UI X),
  kept_by_router s (state_of (replay keys s)) /\
  (forall s', replay keys s = Normal s' ->
     keys_handled (trace s') = keys_handled (trace s) ++ keys).
Proof.
  induction keys as [|key keys IH]; intros s; cbn [replay].
  - split; [apply kept_by_router_refl|].
    intros s' H. inversion H; subst. now rewrite app_nil_r.
  - destruct (handle_key_frame key s) as (Hf & Hk).
    destruct (handle_key key s) as [s1|e s1]; cbn [state_of] in *.
    + destruct (IH s1) as (If & Ik). split.
      * eapply kept_by_router_trans; eassumption.
      * intros s' H. rewrite (Ik s' H), Hk, <- app_assoc. reflexivity.
    + split; [assumption | discriminate].
Qed.






(** Where every command raises instances of [Exception] only, the
    calls of [handle_key] and [handle_input] complete normally. *)
Lemma handle_key_completes (key : Z) (s : UI X) :
  commands_raise_only_Exception ->
  exists s', handle_key key s = Normal s'.
Proof.
  intros Hc. unfold handle_key.
  destruct (offer_key key s) as [[|] s1]; [eauto|].
  unfold route.
  destruct (kbuf_failure _); [eauto|].
  destruct (kbuf_command (ext s1)) as [c|]; [|eauto].
  destruct (cmd_function c) as [f|] eqn:Hf; [|eauto].
  unfold execute.
  match goal with |- context [f ?y] => destruct (f y) as [x'|e x'] eqn:Hr end;
    [eauto|].
  rewrite (Hc c f _ x' e Hf Hr). eauto.
Qed.

Lemma replay_completes (keys : list Z) : forall (s : UI X),
  commands_raise_only_Exception ->
  exists s', replay keys s = Normal s'.
Proof.
  induction keys as [|key keys IH]; intros s Hc; cbn [replay]; [eauto|].
  destruct (handle_key_completes key s Hc) as (s1 & ->). now apply IH.
Qed.

Lemma handle_input_completes (s : UI X) :
  commands_raise_only_Exception ->
  exists s', handle_input s = Normal s'.
Proof.
  intros Hc. unfold handle_input.
  destruct (getch s) as [key s1].
  destruct (is_lead key).
  - destruct (probe 8 [key] (set_load_mode true s1)) as [keys s3].
    destruct (replay_completes keys s3 Hc) as (s4 & ->). eauto.
  - destruct (key >? 0); [|eauto]. now apply handle_key_completes.
Qed.

(** *** Routing *)

(** C3, as the code has it.  [handle_key] hands the key to
    [env.key_append] before it offers it to [press]; when [press]
    consumes the key the routing stops there: the calls of [handle_key]
    are the [hint] hook if there is one, [env.key_append] and [press],
    and the collaborators are left as [press] left them. *)
Theorem consumed_key_stops_after_append (key : Z) (s : UI X) :
  fst (press key (recorded key (ext s))) = true ->
  exists s' : UI X,
    handle_key key s = Normal s' /\
    trace s' = trace s ++ (match hint with Some _ => [call_hint] | None => [] end)
                 ++ [call_key_append key; call_press key true] /\
    ext s' = snd (press key (recorded key (ext s))).
Proof.
  intros Hc. destruct (offer_key_ext key s) as (Hx & Hf).
  pose proof (offer_key_trace key s) as Ht.
  rewrite Hf, Hc in Ht. rewrite <- Hf in Hc.
  exists (snd (offer_key key s)). unfold handle_key.
  destruct (offer_key key s) as [consumed s1]. cbn [fst snd] in *.
  subst consumed. auto.
Qed.

(** C6, as the code has it.  When the function of the resolved command
    raises an instance of [Exception], [handle_key] completes normally:
    [fm.notify] receives that error, once, and the key buffer is cleared
    exactly when its [done] flag is set after the report. *)
Theorem command_exception_is_reported
    (key : Z) (s s1 : UI X) (c : Cmd) (f : X -> Outcome X)
    (error : BaseException) (x : X) :
  offer_key key s = (false, s1) ->
  kbuf_failure (fm_hide_bookmarks (ext s1)) = false ->
  kbuf_command (ext s1) = Some c ->
  cmd_function c = Some f ->
  f (env_set_cmd c (fm_hide_bookmarks (ext s1))) = Raised error x ->
  isinstance_Exception error = true ->
  exists s' : UI X,
    handle_key key s = Normal s' /\
    notified (trace s') = notified (trace s) ++ [error] /\
    count is_kbuf_clear (trace s') =
      (count is_kbuf_clear (trace s)
       + (if kbuf_done (fm_notify error x) then 1 else 0))%nat /\
    trace s' =
      trace s1 ++ [call_hide_bookmarks; call_function (Some error); call_notify error]
        ++ (if kbuf_done (fm_notify error x) then [call_kbuf_clear] else []) /\
    ext s' = (if kbuf_done (fm_notify error x)
              then kbuf_clear (fm_notify error x) else fm_notify error x).
Proof.
  intros Ho Hf Hc Hfn Hr He.
  destruct (offer_key_frame key s) as (_ & _ & Qn & Qc & _).
  unfold handle_key. rewrite Ho in *. cbn [fst snd] in *.
  rewrite <- Qn, <- Qc. clear Qn Qc Ho.
  destruct s1 as [t latch lm dt q x1 tr]. cbn in *.
  unfold route. cbn. rewrite Hf, Hc, Hfn. unfold execute. cbn.
  rewrite Hr, He. unfold clear_if_done. cbn.
  destruct (kbuf_done (fm_notify error x)); cbn; eexists; (split; [reflexivity|]);
    trace_simpl; repeat split; lia.
Qed.

(** X9.  What is raised and is not an instance of [Exception] leaves
    [handle_key]: nothing is notified and the key buffer is not
    cleared. *)
Lemma other_exception_leaves_handle_key
    (key : Z) (s s1 : UI X) (c : Cmd) (f : X -> Outcome X)
    (error : BaseException) (x : X) :
  offer_key key s = (false, s1) ->
  kbuf_failure (fm_hide_bookmarks (ext s1)) = false ->
  kbuf_command (ext s1) = Some c ->
  cmd_function c = Some f ->
  f (env_set_cmd c (fm_hide_bookmarks (ext s1))) = Raised error x ->
  isinstance_Exception error = false ->
  exists s' : UI X,
    handle_key key s = Propagated error s' /\
    notified (trace s') = notified (trace s) /\
    count is_kbuf_clear (trace s') = count is_kbuf_clear (trace s) /\
    ext s' = x.
Proof.
  intros Ho Hf Hc Hfn Hr He.
  destruct (offer_key_frame key s) as (_ & _ & Qn & Qc & _).
  unfold handle_key. rewrite Ho in *. cbn [fst snd] in *.
  rewrite <- Qn, <- Qc. clear Qn Qc Ho.
  destruct s1 as [t latch lm dt q x1 tr]. cbn in *.
  unfold route. cbn. rewrite Hf, Hc, Hfn. unfold execute. cbn.
  rewrite Hr, He. eexists; (split; [reflexivity|]).
  trace_simpl; repeat split; lia.
Qed.

(** C10.  When [press] declines the key, the buffer reports no failure
    and holds a command, and that command has no function, [handle_key]
    clears the key buffer, whatever its [done] flag says, runs nothing
    and notifies nothing. *)
Theorem command_without_function_clears
    (key : Z) (s s1 : UI X) (c : Cmd) :
  offer_key key s = (false, s1) ->
  kbuf_failure (fm_hide_bookmarks (ext s1)) = false ->
  kbuf_command (ext s1) = Some c ->
  cmd_function c = None ->
  exists s' : UI X,
    handle_key key s = Normal s' /\
    trace s' = trace s1 ++ [call_hide_bookmarks; call_kbuf_clear] /\
    ext s' = kbuf_clear (env_set_cmd c (fm_hide_bookmarks (ext s1))) /\
    count is_function (trace s') = count is_function (trace s) /\
    notified (trace s') = notified (trace s).
Proof.
  intros Ho Hf Hc Hfn.
  destruct (offer_key_frame key s) as (_ & _ & Qn & _ & Qf).
  unfold handle_key. rewrite Ho in *. cbn [fst snd] in *.
  rewrite <- Qn, <- Qf. clear Qn Qf Ho.
  destruct s1 as [t latch lm dt q x1 tr]. cbn in *.
  unfold route. cbn. rewrite Hf, Hc, Hfn.
  eexists; split; [reflexivity|].
  trace_simpl. repeat split; lia.
Qed.

(** *** The title *)

(** C7.  With the title enabled, the working directory
    /home/alice/a/b/c/d, the home path /home/alice and a shorten depth of
    2, [draw] computes the title path c/d and writes it in the title
    escape sequence, between the drawing of the widgets and the refresh. *)
Theorem draw_title_truncated (s : UI X) :
  _draw_title s = true ->
  settings_update_title (container_draw (ext s)) = true ->
  env_cwd_path (container_draw (ext s)) = "/home/alice/a/b/c/d"%string ->
  env_home_path (container_draw (ext s)) = "/home/alice"%string ->
  settings_shorten_title (container_draw (ext s)) = 2 ->
  title_path (env_cwd_path (container_draw (ext s)))
    (env_home_path (container_draw (ext s)))
    (settings_shorten_title (container_draw (ext s))) = "c/d"%string /\
  trace (draw s) =
    trace s ++ [win_touchwin; call_container_draw;
                stdout_write (title_sequence "c/d"); win_refresh].
Proof.
  intros Hd Hu Hc Hh Hn.
  destruct s as [t latch lm dt q x tr]. cbn in *. subst dt.
  unfold draw. cbn. rewrite Hu, Hc, Hh, Hn. cbn [andb].
  split; [reflexivity|].
  cbn. now rewrite <- !app_assoc.
Qed.

(** *** The life of a session *)

Lemma latch_kept_refl (s : UI X) : latch_kept s s.
Proof. split; reflexivity. Qed.

Lemma latch_kept_trans (s1 s2 s3 : UI X) :
  latch_kept s1 s2 -> latch_kept s2 s3 -> latch_kept s1 s3.
Proof. intros [A B] [C D]. split; congruence. Qed.

Lemma kept_by_router_latch (s s' : UI X) : kept_by_router s s' -> latch_kept s s'.
Proof. intros (_ & A & _ & _ & _ & B). split; assumption. Qed.

Lemma suspend_latch (s : UI X) : latch_kept s (suspend s).
Proof.
  destruct s as [t latch lm dt q x tr]. unfold latch_kept, suspend, try_curs_set. cbn.
  destruct (can_curs_set t); trace_simpl; auto.
Qed.

Lemma draw_latch (s : UI X) : latch_kept s (draw s).
Proof.
  destruct s as [t latch lm dt q x tr]. unfold latch_kept, draw. cbn.
  destruct (dt && settings_update_title (container_draw x)); trace_simpl; auto.
Qed.

Lemma set_load_mode_latch (b : bool) (s : UI X) : latch_kept s (set_load_mode b s).
Proof.
  split; [apply set_load_mode_spec | apply set_load_mode_quiet].
Qed.

Lemma handle_input_latch (s : UI X) : latch_kept s (state_of (handle_input s)).
Proof.
  unfold handle_input.
  destruct (getch_spec s) as (_ & _ & _ & Hl & _ & _ & _ & _ & Hc).
  destruct (getch s) as [key s1]. cbn [fst snd] in *.
  apply latch_kept_trans with s1; [split; assumption|]. clear Hl Hc.
  destruct (is_lead key).
  - apply latch_kept_trans with (set_load_mode true s1);
      [apply set_load_mode_latch|].
    destruct (probe_spec 8 [key] (set_load_mode true s1))
      as (_ & _ & Pl & _ & _ & _ & _ & Pc).
    destruct (probe 8 [key] (set_load_mode true s1)) as [keys s3].
    cbn [fst snd] in *.
    apply latch_kept_trans with s3; [split; assumption|].
    destruct (replay_spec keys s3) as (Rf & _).
    apply kept_by_router_latch in Rf.
    destruct (replay keys s3) as [s4|e s4]; cbn [state_of] in *; [|assumption].
    eapply latch_kept_trans; [eassumption | apply set_load_mode_latch].
  - set (s2 := if settings_flushinput (ext s1) then flushinp s1 else s1).
    apply latch_kept_trans with s2.
    { subst s2. destruct (settings_flushinput (ext s1)); [|apply latch_kept_refl].
      destruct s1; unfold latch_kept; trace_simpl; auto. }
    destruct (key >? 0); [|apply latch_kept_refl].
    apply kept_by_router_latch, handle_key_frame.
Qed.

(** Every method but [initialize] leaves the latch and the count of
    [setup] calls alone. *)
Lemma call_latch (m : Method) (s : UI X) :
  is_Initialize m = false -> latch_kept s (state_of (call m s)).
Proof.
  destruct m; cbn [is_Initialize call state_of]; intros H; try discriminate.
  - apply suspend_latch.
  - apply set_load_mode_latch.
  - apply kept_by_router_latch, handle_key_frame.
  - apply handle_input_latch.
  - apply draw_latch.
  - destruct s; unfold latch_kept; trace_simpl; auto.
Qed.

(** Once the latch is set, no sequence of calls runs [setup] again. *)
Lemma lifetime_latched (ms : list Method) : forall (s : UI X),
  is_set_up s = true ->
  is_set_up (state_of (lifetime ms s)) = true /\
  count is_setup (trace (state_of (lifetime ms s))) = count is_setup (trace s).
Proof.
  induction ms as [|m ms IH]; intros s Hs; cbn [lifetime]; [auto|].
  assert (H1 : is_set_up (state_of (call m s)) = true /\
               count is_setup (trace (state_of (call m s))) = count is_setup (trace s)).
  { destruct (is_Initialize m) eqn:Hm.
    - destruct m; try discriminate. cbn [call state_of].
      split; [apply initialize_latch|]. rewrite initialize_setups, Hs. lia.
    - destruct (call_latch m s Hm) as [A B]. split; congruence. }
  destruct H1 as [A B].
  destruct (call m s) as [s1|e s1]; cbn [state_of] in *; [|auto].
  destruct (IH s1 A) as [C D]. split; congruence.
Qed.


(** *** Load mode and the read mode *)

Lemma kept_by_router_polls (s s' : UI X) :
  kept_by_router s s' -> load_mode_polls s -> load_mode_polls s'.
Proof. intros (A & _ & B & _) H. unfold load_mode_polls. rewrite A, B. exact H. Qed.

Lemma set_load_mode_keeps_polls (b : bool) (s : UI X) :
  load_mode_polls s -> load_mode_polls (set_load_mode b s).
Proof.
  intros H. destruct b.
  - intros _. now apply set_load_mode_polls.
  - intros L. destruct (set_load_mode_spec false s) as (E & _). congruence.
Qed.

Lemma handle_input_polls (s : UI X) :
  load_mode_polls s -> load_mode_polls (state_of (handle_input s)).
Proof.
  intros H. unfold handle_input.
  destruct (getch_spec s) as (_ & _ & Ht & _ & Hm & _).
  destruct (getch s) as [key s1]. cbn [fst snd] in *.
  assert (H1 : load_mode_polls s1) by (unfold load_mode_polls; now rewrite Ht, Hm).
  clear H Ht Hm. destruct (is_lead key).
  - pose proof (set_load_mode_keeps_polls true s1 H1) as H2.
    destruct (probe_spec 8 [key] (set_load_mode true s1))
      as (_ & Pt & _ & Pm & _).
    destruct (probe 8 [key] (set_load_mode true s1)) as [keys s3].
    cbn [fst snd] in *.
    assert (H3 : load_mode_polls s3) by (unfold load_mode_polls; now rewrite Pt, Pm).
    destruct (replay_spec keys s3) as (Rf & _).
    pose proof (kept_by_router_polls _ _ Rf H3) as H4.
    destruct (replay keys s3) as [s4|e s4]; cbn [state_of] in *; [|assumption].
    now apply set_load_mode_keeps_polls.
  - set (s2 := if settings_flushinput (ext s1) then flushinp s1 else s1).
    assert (H2 : load_mode_polls s2).
    { subst s2. destruct (settings_flushinput (ext s1)); assumption. }
    destruct (key >? 0); [|assumption].
    eapply kept_by_router_polls; [apply handle_key_frame | assumption].
Qed.

(** The flag and the terminal agree after every method, as far as it
    got, when they agreed before. *)
Lemma call_polls (m : Method) (s : UI X) :
  load_mode_polls s -> load_mode_polls (state_of (call m s)).
Proof.
  intros H. destruct m; cbn [call state_of].
  - intros L. destruct (initialize_resets_load_mode s) as (E & _). congruence.
  - destruct s as [t latch lm dt q x tr].
    unfold load_mode_polls, suspend, try_curs_set, read_mode in *. cbn in *.
    destruct (can_curs_set t); cbn; intros L; specialize (H L);
      destruct (halfdelay t); try discriminate; assumption.
  - now apply set_load_mode_keeps_polls.
  - eapply kept_by_router_polls; [apply handle_key_frame | assumption].
  - now apply handle_input_polls.
  - destruct s as [t latch lm dt q x tr]. unfold load_mode_polls, draw in *. cbn in *.
    destruct (dt && settings_update_title (container_draw x)); exact H.
  - exact H.
Qed.

Lemma lifetime_polls (ms : list Method) : forall (s : UI X),
  load_mode_polls s -> load_mode_polls (state_of (lifetime ms s)).
Proof.
  induction ms as [|m ms IH]; intros s H; cbn [lifetime]; [assumption|].
  pose proof (call_polls m s H) as H1.
  destruct (call m s) as [s1|e s1]; cbn [state_of] in *; [|assumption].
  now apply IH.
Qed.

(** X21.  The load-mode flag and the terminal agree in every state that
    a life of the session reaches from a state with load mode off: while
    the flag is set, reads do not block. *)
Lemma reached_polls (ms : list Method) (s : UI X) :
  load_mode s = false -> load_mode_polls (state_of (lifetime ms s)).
Proof.
  intros H. apply lifetime_polls. intros L. congruence.
Qed.

End Properties.

(** ** Further properties *)

Section Further.

Context {X Cmd : Type} `{W : Collaborators X Cmd}.

(** *** What leaves [handle_key] *)




Lemma after_read_spec (s : UI X) :
  term (after_read s) = term s /\
  load_mode (after_read s) = load_mode s /\
  ext (after_read s) = ext s /\
  pending (after_read s) =
    (if settings_flushinput (ext s) then [] else tl (pending s)) /\
  trace (after_read s) =
    trace s ++ win_getch (read_mode (term s)) (hd (-1) (pending s))
      :: (if settings_flushinput (ext s) then [curses_flushinp] else []).
Proof.
  destruct s as [t latch lm dt q x tr]. unfold after_read, getch, flushinp.
  destruct q as [|k q]; cbn; destruct (settings_flushinput x); cbn;
    rewrite <- ?app_assoc; auto 10.
Qed.

Lemma handle_input_ordinary (s : UI X) :
  is_lead (hd (-1) (pending s)) = false ->
  handle_input s =
    (if hd (-1) (pending s) >? 0
     then handle_key (hd (-1) (pending s)) (after_read s)
     else Normal (after_read s)).
Proof.
  intros L. unfold handle_input, after_read.
  destruct (getch_spec s) as (Hk & _).
  destruct (getch s) as [key s1]. cbn [fst snd] in *. subst key.
  rewrite L. reflexivity.
Qed.

(** *** The input decoder *)

(** X1.  A code of zero or below that is read first, -1 of an idle device
    among them, is dropped: the call completes, no key is handled, no
    collaborator is called, and the calls made are the read and, where
    the setting asks for it, the flush. *)
Theorem ignored_code_is_dropped (s : UI X) :
  hd (-1) (pending s) <= 0 ->
  exists s' : UI X,
    handle_input s = Normal s' /\
    ext s' = ext s /\
    term s' = term s /\
    load_mode s' = load_mode s /\
    trace s' =
      trace s ++ win_getch (read_mode (term s)) (hd (-1) (pending s))
        :: (if settings_flushinput (ext s) then [curses_flushinp] else []).
Proof.
  intros Hk.
  assert (L : is_lead (hd (-1) (pending s)) = false).
  { unfold is_lead. apply orb_false_iff. split; apply Z.eqb_neq; lia. }
  exists (after_read s). rewrite (handle_input_ordinary s L).
  assert (G : (hd (-1) (pending s) >? 0) = false)
    by (rewrite Z.gtb_ltb; apply Z.ltb_ge; lia).
  rewrite G.
  destruct (after_read_spec s) as (Ht & Hm & Hx & _ & Htr). auto.
Qed.

(** X2.  A positive code that is no lead code is handled at once: one read,
    no lookahead, and the key handed to [handle_key] once, whether
    [handle_key] completes or not. *)
Theorem ordinary_key_is_handled_once (s : UI X) (key : Z) :
  hd (-1) (pending s) = key ->
  0 < key ->
  key <> 27 -> key <> 195 ->
  handle_input s = handle_key key (after_read s) /\
  keys_handled (trace (state_of (handle_input s))) = keys_handled (trace s) ++ [key] /\
  reads (trace (state_of (handle_input s))) =
    reads (trace s) ++ [(read_mode (term s), key)].
Proof.
  intros Hk Hpos H27 H195.
  assert (L : is_lead (hd (-1) (pending s)) = false).
  { rewrite Hk. unfold is_lead. apply orb_false_iff. split; now apply Z.eqb_neq. }
  rewrite (handle_input_ordinary s L), Hk.
  assert (G : (key >? 0) = true) by (rewrite Z.gtb_ltb; apply Z.ltb_lt; lia).
  rewrite G. split; [reflexivity|].
  destruct (handle_key_frame key (after_read s)) as ((_ & _ & _ & _ & Hr & _) & Hh).
  destruct (after_read_spec s) as (_ & _ & _ & _ & Htr).
  rewrite Hh, Hr, Htr, Hk. autorewrite with trace.
  destruct (settings_flushinput (ext s)); cbn; rewrite ?app_nil_r; auto.
Qed.





(** *** The key router *)

(** X6.  When the key buffer reports a failure the sequence is discarded: the
    buffer is cleared and nothing else happens, even if the buffer holds
    a command; no function is called, nothing is notified, and [env.cmd]
    is not set. *)
Theorem failed_sequence_is_discarded (key : Z) (s s1 : UI X) :
  offer_key key s = (false, s1) ->
  kbuf_failure (fm_hide_bookmarks (ext s1)) = true ->
  exists s' : UI X,
    handle_key key s = Normal s' /\
    trace s' = trace s1 ++ [call_hide_bookmarks; call_kbuf_clear] /\
    ext s' = kbuf_clear (fm_hide_bookmarks (ext s1)) /\
    count is_function (trace s') = count is_function (trace s) /\
    notified (trace s') = notified (trace s).
Proof.
  intros Ho Hf.
  destruct (offer_key_frame key s) as (_ & _ & Qn & _ & Qf).
  unfold handle_key. rewrite Ho in *. cbn [fst snd] in *.
  rewrite <- Qn, <- Qf. clear Qn Qf Ho.
  destruct s1 as [t latch lm dt q x1 tr]. cbn in *.
  unfold route. cbn. rewrite Hf.
  eexists; split; [reflexivity|].
  trace_simpl. repeat split; lia.
Qed.

(** X7.  While the key buffer has resolved no command and reports no failure,
    the keys stay in it: [handle_key] hides the bookmarks and returns,
    without clearing the buffer and without calling anything else. *)
Theorem unfinished_sequence_is_kept (key : Z) (s s1 : UI X) :
  offer_key key s = (false, s1) ->
  kbuf_failure (fm_hide_bookmarks (ext s1)) = false ->
  kbuf_command (ext s1) = None ->
  exists s' : UI X,
    handle_key key s = Normal s' /\
    trace s' = trace s1 ++ [call_hide_bookmarks] /\
    ext s' = fm_hide_bookmarks (ext s1) /\
    count is_kbuf_clear (trace s') = count is_kbuf_clear (trace s).
Proof.
  intros Ho Hf Hc.
  destruct (offer_key_frame key s) as (_ & _ & _ & Qc & _).
  unfold handle_key. rewrite Ho in *. cbn [fst snd] in *.
  rewrite <- Qc. clear Qc Ho.
  destruct s1 as [t latch lm dt q x1 tr]. cbn in *.
  unfold route. cbn. rewrite Hf, Hc.
  eexists; split; [reflexivity|].
  trace_simpl. repeat split; lia.
Qed.

(** X8.  When the function of the resolved command returns, it has been
    called once, nothing is notified, and the key buffer is cleared
    exactly when its [done] flag is set after the call. *)
Theorem command_runs_then_clears_when_done
    (key : Z) (s s1 : UI X) (c : Cmd) (f : X -> Outcome X) (x : X) :
  offer_key key s = (false, s1) ->
  kbuf_failure (fm_hide_bookmarks (ext s1)) = false ->
  kbuf_command (ext s1) = Some c ->
  cmd_function c = Some f ->
  f (env_set_cmd c (fm_hide_bookmarks (ext s1))) = Returned x ->
  exists s' : UI X,
    handle_key key s = Normal s' /\
    trace s' =
      trace s1 ++ [call_hide_bookmarks; call_function None]
        ++ (if kbuf_done x then [call_kbuf_clear] else []) /\
    ext s' = (if kbuf_done x then kbuf_clear x else x) /\
    count is_function (trace s') = (count is_function (trace s) + 1)%nat /\
    notified (trace s') = notified (trace s).
Proof.
  intros Ho Hf Hc Hfn Hr.
  destruct (offer_key_frame key s) as (_ & _ & Qn & _ & Qf).
  unfold handle_key. rewrite Ho in *. cbn [fst snd] in *.
  rewrite <- Qn, <- Qf. clear Qn Qf Ho.
  destruct s1 as [t latch lm dt q x1 tr]. cbn in *.
  unfold route. cbn. rewrite Hf, Hc, Hfn. unfold execute. cbn.
  rewrite Hr. unfold clear_if_done. cbn.
  destruct (kbuf_done x); cbn; eexists; (split; [reflexivity|]);
    trace_simpl; repeat split; lia.
Qed.

(** X10.  The bookmarks are hidden once on every key that the widgets do not
    consume, whatever the key buffer holds and whether the command
    completes or not, and not at all on a key that they consume. *)
Theorem bookmarks_hidden_unless_consumed (key : Z) (s : UI X) :
  count is_hide_bookmarks (trace (state_of (handle_key key s))) =
  (count is_hide_bookmarks (trace s)
   + (if fst (press key (recorded key (ext s))) then 0 else 1))%nat.
Proof.
  destruct (offer_key_ext key s) as (_ & Hf). rewrite <- Hf.
  pose proof (offer_key_trace key s) as Ht.
  unfold handle_key.
  destruct (offer_key key s) as [consumed s1]. cbn [fst snd] in *.
  assert (H1 : count is_hide_bookmarks (trace s1) = count is_hide_bookmarks (trace s)).
  { rewrite Ht. autorewrite with trace. destruct hint; cbn; lia. }
  rewrite <- H1. clear Ht H1.
  destruct consumed; cbn [state_of]; [lia|].
  destruct s1 as [t latch lm dt q x1 tr]. unfold route. cbn.
  destruct (kbuf_failure (fm_hide_bookmarks x1)); [trace_simpl; lia|].
  destruct (kbuf_command x1) as [c|]; [|trace_simpl; lia].
  destruct (cmd_function c) as [f|]; [|trace_simpl; lia].
  unfold execute, clear_if_done. cbn.
  destruct (f (env_set_cmd c (fm_hide_bookmarks x1))) as [x'|error x']; cbn.
  - destruct (kbuf_done x'); trace_simpl; lia.
  - destruct (isinstance_Exception error); cbn;
      [destruct (kbuf_done (fm_notify error x'))|]; trace_simpl; lia.
Qed.

(** *** What leaves a method *)



(** *** The latch *)

(** X12.  The latch tells whether [setup] has run: in every life of a session
    that starts with the latch unset, completed or cut short by an
    exception, with or without a call of [initialize], [setup] has been
    called once if the latch is set at the end and not at all if it is
    not. *)
Theorem setup_follows_latch (ms : list Method) : forall (s : UI X),
  is_set_up s = false ->
  count is_setup (trace (state_of (lifetime ms s))) =
  (count is_setup (trace s)
   + (if is_set_up (state_of (lifetime ms s)) then 1 else 0))%nat.
Proof.
  induction ms as [|m ms IH]; intros s Hs; cbn [lifetime].
  - cbn [state_of]. rewrite Hs. lia.
  - destruct (is_Initialize m) eqn:Hm.
    + destruct m; try discriminate. cbn [call].
      destruct (lifetime_latched ms (initialize s) (initialize_latch s)) as [A B].
      rewrite A, B, initialize_setups, Hs. reflexivity.
    + destruct (call_latch m s Hm) as [A B].
      destruct (call m s) as [s1|e s1]; cbn [state_of] in *.
      * rewrite (IH s1 (eq_trans A Hs)), B. reflexivity.
      * rewrite A, Hs, B. lia.
Qed.

(** *** Load mode *)

(** X13.  [set_load_mode] does nothing when the flag has the value asked for,
    so that a second call with the same value changes nothing. *)
Theorem set_load_mode_idempotent (b : bool) (s : UI X) :
  set_load_mode (load_mode s) s = s /\
  set_load_mode b (set_load_mode b s) = set_load_mode b s.
Proof.
  destruct s as [t latch lm dt q x tr]. unfold set_load_mode. cbn.
  destruct b, lm; cbn; auto.
Qed.

(** X14.  Load mode entered and left from the mode that [initialize] sets:
    the flag is off again, reads wait 20 tenths of a second again, and
    the terminal is as before with the [nodelay] flag off. *)
Theorem load_mode_round_trip (s : UI X) :
  load_mode s = false ->
  cbreak (term s) = true ->
  halfdelay (term s) = Some 20 ->
  term (set_load_mode false (set_load_mode true s)) = Curses.set_nodelay 0 (term s) /\
  load_mode (set_load_mode false (set_load_mode true s)) = false /\
  read_mode (term (set_load_mode true s)) = NonBlocking /\
  read_mode (term (set_load_mode false (set_load_mode true s))) = Timed 20.
Proof.
  destruct s as [t latch lm dt q x tr].
  destruct t as [lo kp nd cb ec hd cu co mm mi ew can]. cbn. intros -> -> ->.
  unfold set_load_mode. cbn. auto.
Qed.

(** *** Suspension and resumption *)

(** X15.  A suspension before [initialize] changes nothing of what
    [initialize] establishes but the mark of [endwin]: the terminal
    modes, the flags and the collaborators are those of a session that
    was initialized without it. *)
Theorem initialize_after_suspend (s : UI X) :
  term (initialize (suspend s)) = Curses.set_isendwin true (term (initialize s)) /\
  load_mode (initialize (suspend s)) = load_mode (initialize s) /\
  is_set_up (initialize (suspend s)) = is_set_up (initialize s) /\
  pending (initialize (suspend s)) = pending (initialize s) /\
  ext (initialize (suspend s)) = ext (initialize s).
Proof.
  destruct s as [t latch lm dt q x tr].
  destruct t as [lo kp nd cb ec hd cu co mm mi ew can].
  unfold initialize, suspend, try_curs_set, update_size. cbn.
  destruct can; cbn; destruct latch; cbn; auto.
Qed.

(** *** Writes to standard output *)

Lemma title_kept_refl (s : UI X) : title_kept s s.
Proof. split; reflexivity. Qed.

Lemma title_kept_trans (s1 s2 s3 : UI X) :
  title_kept s1 s2 -> title_kept s2 s3 -> title_kept s1 s3.
Proof. intros [A B] [C D]. split; congruence. Qed.

Lemma handle_key_title (key : Z) (s : UI X) :
  title_kept s (state_of (handle_key key s)).
Proof.
  destruct s as [t latch lm dt q x tr].
  unfold title_kept, handle_key, offer_key, route, execute, clear_if_done. cbn.
  destruct hint as [h|]; cbn;
    match goal with |- context [press key ?y] => destruct (press key y) as [[|] x1] end;
    cbn; try (trace_simpl; split; [reflexivity | lia]);
    (destruct (kbuf_failure (fm_hide_bookmarks x1));
     [trace_simpl; split; [reflexivity | lia]|]);
    (destruct (kbuf_command x1) as [c|]; [|trace_simpl; split; [reflexivity | lia]]);
    (destruct (cmd_function c) as [f|]; [|trace_simpl; split; [reflexivity | lia]]);
    cbn;
    (destruct (f (env_set_cmd c (fm_hide_bookmarks x1))) as [x'|error x']; cbn;
     [destruct (kbuf_done x')
     |destruct (isinstance_Exception error); cbn;
      [destruct (kbuf_done (fm_notify error x'))|]]);
    trace_simpl; split; (reflexivity || lia).
Qed.

Lemma getch_title (s : UI X) : title_kept s (snd (getch s)).
Proof.
  destruct s as [t latch lm dt q x tr]. unfold title_kept, getch.
  destruct q; trace_simpl; split; (reflexivity || lia).
Qed.

Lemma set_load_mode_title (b : bool) (s : UI X) : title_kept s (set_load_mode b s).
Proof.
  destruct s as [t latch lm dt q x tr]. unfold title_kept, set_load_mode.
  destruct b, lm; trace_simpl; split; (reflexivity || lia).
Qed.

Lemma probe_title (n : nat) : forall (keys : list Z) (s : UI X),
  title_kept s (snd (probe n keys s)).
Proof.
  induction n as [|n IH]; intros keys s; cbn [probe]; [apply title_kept_refl|].
  pose proof (getch_title s) as G.
  destruct (getch s) as [getkey s1]. cbn [snd] in G.
  eapply title_kept_trans; [exact G | apply IH].
Qed.

Lemma replay_title (keys : list Z) : forall (s : UI X),
  title_kept s (state_of (replay keys s)).
Proof.
  induction keys as [|key keys IH]; intros s; cbn [replay]; [apply title_kept_refl|].
  pose proof (handle_key_title key s) as K.
  destruct (handle_key key s) as [s1|e s1]; cbn [state_of] in *; [|exact K].
  eapply title_kept_trans; [exact K | apply IH].
Qed.

Lemma handle_input_title (s : UI X) : title_kept s (state_of (handle_input s)).
Proof.
  unfold handle_input.
  pose proof (getch_title s) as G.
  destruct (getch s) as [key s1]. cbn [snd] in G.
  eapply title_kept_trans; [exact G|]. clear G.
  destruct (is_lead key).
  - eapply title_kept_trans; [apply (set_load_mode_title true)|].
    pose proof (probe_title 8 [key] (set_load_mode true s1)) as P.
    destruct (probe 8 [key] (set_load_mode true s1)) as [keys s3]. cbn [snd] in P.
    eapply title_kept_trans; [exact P|].
    pose proof (replay_title keys s3) as R.
    destruct (replay keys s3) as [s4|e s4]; cbn [state_of] in *; [|exact R].
    eapply title_kept_trans; [exact R | apply set_load_mode_title].
  - set (s2 := if settings_flushinput (ext s1) then flushinp s1 else s1).
    apply title_kept_trans with s2.
    { subst s2. destruct (settings_flushinput (ext s1)); [|apply title_kept_refl].
      destruct s1; unfold title_kept; trace_simpl; split; (reflexivity || lia). }
    destruct (key >? 0); [apply handle_key_title | apply title_kept_refl].
Qed.

(** Of the methods only [draw] writes to standard output: the title,
    once, when the terminal has one and the setting is on. *)
Lemma call_title (m : Method) (s : UI X) :
  _draw_title (state_of (call m s)) = _draw_title s /\
  count is_stdout_write (trace (state_of (call m s))) =
    (count is_stdout_write (trace s)
     + (if is_Draw m && _draw_title s && settings_update_title (container_draw (ext s))
        then 1 else 0))%nat.
Proof.
  destruct m; cbn [call state_of is_Draw andb].
  - destruct s as [t latch lm dt q x tr].
    unfold initialize, try_curs_set, update_size. cbn.
    destruct (can_curs_set t); cbn; destruct latch; trace_simpl;
      split; (reflexivity || lia).
  - destruct s as [t latch lm dt q x tr]. unfold suspend, try_curs_set. cbn.
    destruct (can_curs_set t); trace_simpl; split; (reflexivity || lia).
  - destruct (set_load_mode_title boolean s) as [A B]. rewrite A, B. split; [auto | lia].
  - destruct (handle_key_title key s) as [A B]. rewrite A, B. split; [auto | lia].
  - destruct (handle_input_title s) as [A B]. rewrite A, B. split; [auto | lia].
  - destruct s as [t latch lm dt q x tr]. unfold draw. cbn.
    destruct (dt && settings_update_title (container_draw x)); trace_simpl;
      split; (reflexivity || lia).
  - destruct s as [t latch lm dt q x tr]. trace_simpl. split; (reflexivity || lia).
Qed.

(** X16.  On a terminal without a title ([_draw_title] unset) nothing is ever
    written to standard output, in any life of the session and whatever
    the title setting says. *)
Theorem no_title_without_capability (ms : list Method) : forall (s : UI X),
  _draw_title s = false ->
  _draw_title (state_of (lifetime ms s)) = false /\
  count is_stdout_write (trace (state_of (lifetime ms s))) =
    count is_stdout_write (trace s).
Proof.
  induction ms as [|m ms IH]; intros s Hs; cbn [lifetime]; [auto|].
  destruct (call_title m s) as [A B]. rewrite Hs in A, B.
  rewrite andb_false_r in B. cbn in B. rewrite Nat.add_0_r in B.
  destruct (call m s) as [s1|e s1]; cbn [state_of] in *.
  - destruct (IH s1 A) as [C D]. split; congruence.
  - split; assumption.
Qed.

(** X17.  The title is written once per call of [draw] at most: in any life of
    the session the writes to standard output are no more than the
    calls of [draw]. *)
Theorem title_once_per_draw (ms : list Method) : forall (s : UI X),
  (count is_stdout_write (trace (state_of (lifetime ms s)))
   <= count is_stdout_write (trace s) + draws ms)%nat.
Proof.
  induction ms as [|m ms IH]; intros s; cbn [lifetime]; [cbn; lia|].
  destruct (call_title m s) as [_ B].
  assert (D : draws (m :: ms) = ((if is_Draw m then 1 else 0) + draws ms)%nat).
  { unfold draws. cbn [filter]. destruct (is_Draw m); reflexivity. }
  rewrite D.
  assert (B' : (count is_stdout_write (trace (state_of (call m s)))
                <= count is_stdout_write (trace s) + (if is_Draw m then 1 else 0))%nat).
  { rewrite B. destruct (is_Draw m); cbn; [|lia].
    destruct (_draw_title s && settings_update_title (container_draw (ext s))); lia. }
  destruct (call m s) as [s1|e s1]; cbn [state_of] in *.
  - specialize (IH s1). lia.
  - lia.
Qed.

End Further.

(** ** Further properties of the terminal modes *)

Section FurtherModes.

Context {X Cmd : Type} `{W : Collaborators X Cmd}.




(** X24.  Every call of [handle_key] hands its key to [env.key_append] once,
    whatever follows: consumed by the widgets, failed, unfinished, run,
    or cut short by an exception. *)
Theorem every_key_is_recorded_once (key : Z) (s : UI X) :
  keys_handled (trace (state_of (handle_key key s))) = keys_handled (trace s) ++ [key].
Proof. apply handle_key_frame. Qed.

End FurtherModes.

(** ** The title path *)

Section TitlePath.

Local Open Scope string_scope.

Variable c : ascii.

Lemma sapp_nil_r (s : string) : s ++ "" = s.
Proof. induction s as [|a s IH]; cbn; [reflexivity | now rewrite IH]. Qed.

Lemma sapp_assoc (s1 s2 s3 : string) : (s1 ++ s2) ++ s3 = s1 ++ (s2 ++ s3).
Proof. induction s1 as [|a s1 IH]; cbn; [reflexivity | now rewrite IH]. Qed.

Lemma occurrences_app (s1 s2 : string) :
  occurrences c (s1 ++ s2) = (occurrences c s1 + occurrences c s2)%nat.
Proof. induction s1 as [|a s1 IH]; cbn; [reflexivity | rewrite IH; lia]. Qed.


Lemma contains_occurrences (s : string) :
  Str.contains c s = (0 <? occurrences c s)%nat.
Proof.
  induction s as [|a s IH]; cbn; [reflexivity|].
  destruct (Ascii.eqb a c); cbn; [reflexivity | exact IH].
Qed.

Lemma reverse_onto_spec (s : string) : forall acc,
  Str.reverse_onto s acc = Str.reverse s ++ acc.
Proof.
  unfold Str.reverse. induction s as [|a s IH]; intros acc; cbn; [reflexivity|].
  rewrite IH, (IH (String a "")), sapp_assoc. reflexivity.
Qed.

Lemma reverse_cons (a : ascii) (s : string) :
  Str.reverse (String a s) = Str.reverse s ++ String a "".
Proof. unfold Str.reverse at 1. cbn. apply reverse_onto_spec. Qed.

Lemma reverse_app (s1 s2 : string) :
  Str.reverse (s1 ++ s2) = Str.reverse s2 ++ Str.reverse s1.
Proof.
  induction s1 as [|a s1 IH]; cbn [append].
  - now rewrite sapp_nil_r.
  - now rewrite !reverse_cons, IH, sapp_assoc.
Qed.

Lemma reverse_involutive (s : string) : Str.reverse (Str.reverse s) = s.
Proof.
  induction s as [|a s IH]; [reflexivity|].
  now rewrite reverse_cons, reverse_app, IH.
Qed.

Lemma occurrences_reverse (s : string) :
  occurrences c (Str.reverse s) = occurrences c s.
Proof.
  induction s as [|a s IH]; [reflexivity|].
  rewrite reverse_cons, occurrences_app, IH. cbn. lia.
Qed.

(** [cut] finds the leftmost separator. *)
Lemma cut_spec (s : string) :
  match Str.cut c s with
  | Some (before, after) =>
      s = before ++ String c after /\ occurrences c before = O
  | None => occurrences c s = O
  end.
Proof.
  induction s as [|a s IH]; cbn; [reflexivity|].
  destruct (Ascii.eqb_spec a c) as [->|Hn].
  - split; reflexivity.
  - destruct (Str.cut c s) as [[before after]|].
    + destruct IH as [-> Ho]. cbn.
      destruct (Ascii.eqb_spec a c); [contradiction|]. split; [reflexivity | exact Ho].
    + exact IH.
Qed.

(** [split] gives pieces without a separator, as many as there are
    separators and [maxsplit] allow, and a last piece with the
    separators that are left. *)
Lemma split_spec (n : nat) : forall (s : string),
  exists (pieces : list string) (last : string),
    Str.split c n s = (pieces ++ [last])%list /\
    Forall (fun p => occurrences c p = O) pieces /\
    List.length pieces = Nat.min n (occurrences c s) /\
    occurrences c last = (occurrences c s - n)%nat /\
    s = glue c pieces last.
Proof.
  induction n as [|n IH]; intros s; cbn [Str.split].
  - exists [], s. cbn. repeat split; try constructor; lia.
  - pose proof (cut_spec s) as Hc.
    destruct (Str.cut c s) as [[before after]|].
    + destruct Hc as [-> Ho].
      destruct (IH after) as (pieces & last & Hs & Hf & Hl & Hk & Hg).
      exists (before :: pieces), last. rewrite Hs.
      rewrite occurrences_app, Ho. cbn [occurrences].
      rewrite Ascii.eqb_refl. cbn [List.length glue].
      repeat split; [now constructor | lia | lia | now rewrite <- Hg].
    + exists [], s. cbn. rewrite Hc. repeat split; try constructor; lia.
Qed.

Lemma concat_snoc (l : list string) (x : string) :
  l <> [] ->
  String.concat (String c "") (l ++ [x]) = String.concat (String c "") l ++ String c x.
Proof.
  induction l as [|a l IH]; intros Hl; [contradiction|].
  destruct l as [|b l]; [reflexivity|].
  change (String.concat (String c "") ((a :: b :: l) ++ [x]))
    with (a ++ String c "" ++ String.concat (String c "") ((b :: l) ++ [x])).
  rewrite IH by discriminate.
  change (String.concat (String c "") (a :: b :: l))
    with (a ++ String c "" ++ String.concat (String c "") (b :: l)).
  now rewrite !sapp_assoc.
Qed.

(** A glued text read backwards: the last piece reversed, a separator,
    and the other pieces reversed and joined in reverse order. *)
Lemma reverse_glue (pieces : list string) (last : string) :
  pieces <> [] ->
  Str.reverse (glue c pieces last) =
  Str.reverse last ++ String c (Str.join c (rev (map Str.reverse pieces))).
Proof.
  induction pieces as [|p pieces IH]; intros Hp; [contradiction|].
  cbn [glue map rev]. rewrite reverse_app, reverse_cons.
  destruct pieces as [|q pieces].
  - cbn [glue map rev app]. unfold Str.join. cbn [String.concat].
    now rewrite sapp_assoc.
  - rewrite IH by discriminate. unfold Str.join.
    rewrite concat_snoc.
    + now rewrite !sapp_assoc.
    + cbn [map rev]. intros H. apply app_eq_nil in H. destruct H; discriminate.
Qed.

Lemma occurrences_join (l : list string) :
  Forall (fun p => occurrences c p = O) l ->
  occurrences c (Str.join c l) = (List.length l - 1)%nat.
Proof.
  unfold Str.join. induction l as [|a l IH]; intros Hf; [reflexivity|].
  inversion Hf as [|? ? Ha Hl]; subst.
  destruct l as [|b l]; [cbn; lia|].
  change (String.concat (String c "") (a :: b :: l))
    with (a ++ String c "" ++ String.concat (String c "") (b :: l)).
  rewrite !occurrences_app, Ha, (IH Hl). cbn [occurrences List.length].
  rewrite Ascii.eqb_refl. lia.
Qed.

(** [rsplit], by the pieces that [split] finds in the reversed text. *)
Lemma rsplit_spec (maxsplit : Z) (s : string) :
  exists (pieces : list string) (last : string),
    Str.rsplit c maxsplit s = Str.reverse last :: rev (map Str.reverse pieces) /\
    Forall (fun p => occurrences c p = O) pieces /\
    List.length pieces =
      Nat.min (if (maxsplit <? 0)%Z then String.length s else Z.to_nat maxsplit)
        (occurrences c s) /\
    occurrences c last =
      (occurrences c s
       - (if (maxsplit <? 0)%Z then String.length s else Z.to_nat maxsplit))%nat /\
    Str.reverse s = glue c pieces last.
Proof.
  unfold Str.rsplit.
  destruct (split_spec (if (maxsplit <? 0)%Z then String.length s else Z.to_nat maxsplit)
              (Str.reverse s)) as (pieces & last & Hs & Hf & Hl & Hk & Hg).
  exists pieces, last. rewrite Hs, map_app, rev_app_distr.
  rewrite occurrences_reverse in Hl, Hk. cbn. auto.
Qed.

End TitlePath.

(** The separators of the collapsed path decide whether [title_path]
    shortens it. *)
Lemma title_path_cases (cwd home_path : string) (n : Z) :
  exists (pieces : list string) (last : string),
    Forall (fun p => occurrences Str.sep p = O) pieces /\
    List.length pieces =
      Nat.min (if (n <? 0)%Z then String.length (collapse_home cwd home_path) else Z.to_nat n)
        (occurrences Str.sep (collapse_home cwd home_path)) /\
    occurrences Str.sep last =
      (occurrences Str.sep (collapse_home cwd home_path)
       - (if (n <? 0)%Z then String.length (collapse_home cwd home_path) else Z.to_nat n))%nat /\
    Str.reverse (collapse_home cwd home_path) = glue Str.sep pieces last /\
    title_path cwd home_path n =
      if truth n && (0 <? occurrences Str.sep last)%nat
      then Str.join Str.sep (rev (map Str.reverse pieces))
      else collapse_home cwd home_path.
Proof.
  destruct (rsplit_spec Str.sep n (collapse_home cwd home_path))
    as (pieces & last & Hs & Hf & Hl & Hk & Hg).
  exists pieces, last. repeat split; try assumption.
  unfold title_path. fold (collapse_home cwd home_path).
  destruct (truth n); [|reflexivity]. cbn [andb].
  rewrite Hs. cbn [hd tl].
  rewrite contains_occurrences, occurrences_reverse. reflexivity.
Qed.


(** X19.  With a depth [n] above zero and a path of more than [n] separators,
    the title path is what follows the [n]-th separator from the right:
    the collapsed path is some head, a separator, and the title path,
    which holds [n] segments, that is [n - 1] separators. *)
Theorem title_path_shortened (cwd home_path : string) (n : Z) :
  0 < n ->
  (Z.to_nat n < occurrences Str.sep (collapse_home cwd home_path))%nat ->
  exists head : string,
    collapse_home cwd home_path = joined head (title_path cwd home_path n) /\
    occurrences Str.sep (title_path cwd home_path n) = (Z.to_nat n - 1)%nat.
Proof.
  intros Hn Hk.
  destruct (title_path_cases cwd home_path n)
    as (pieces & last & Hf & Hl & Ho & Hg & ->).
  assert (Hneg : (n <? 0) = false) by (apply Z.ltb_ge; lia).
  rewrite Hneg in Hl, Ho.
  assert (Ht : truth n = true).
  { unfold truth. apply negb_true_iff, Z.eqb_neq. lia. }
  assert (Hp : (0 <? occurrences Str.sep last)%nat = true) by (apply Nat.ltb_lt; lia).
  rewrite Ht, Hp. cbn [andb].
  assert (Hne : pieces <> []).
  { intros ->. cbn in Hl. lia. }
  exists (Str.reverse last). split.
  - rewrite <- (reverse_involutive (collapse_home cwd home_path)), Hg.
    apply reverse_glue. exact Hne.
  - rewrite occurrences_join.
    + rewrite length_rev, length_map, Hl. lia.
    + apply Forall_rev, Forall_map. revert Hf. apply Forall_impl.
      intros p Hp0. now rewrite occurrences_reverse.
Qed.

Lemma prefix_app (p r : string) : String.prefix p (p ++ r)%string = true.
Proof.
  induction p as [|a p IH]; cbn; [now destruct r|].
  destruct (ascii_dec a a); [exact IH | contradiction].
Qed.

Lemma slice_from_app (p r : string) :
  Str.slice_from (String.length p) (p ++ r)%string = r.
Proof. induction p as [|a p IH]; cbn; [reflexivity | exact IH]. Qed.

(** X20.  The home prefix is matched as text, not as a directory: whatever
    follows the home path in the working directory follows "~" in the
    title, for the home directory itself (nothing follows), for a
    directory below it, and also for a neighbour whose name only starts
    like the home path. *)
Theorem home_prefix_is_textual (home_path r : string) :
  collapse_home (home_path ++ r) home_path = String "~" r /\
  title_path (home_path ++ r) home_path 0 = String "~" r.
Proof.
  assert (H : collapse_home (home_path ++ r) home_path = String "~" r).
  { unfold collapse_home, Str.startswith. now rewrite prefix_app, slice_from_app. }
  split; [exact H|].
  unfold title_path. fold (collapse_home (home_path ++ r) home_path). exact H.
Qed.

(** ** The properties on the concrete collaborators *)

Module MockRuns.

Import Mock.



(** Of the twenty codes, the first eight are handled after the lead
    code; the lead code is read in half-delay mode and the eight without
    blocking. *)
Example twenty_behind_escape :
  keys_handled (trace (after_input escape_twenty)) =
    [27; 97; 98; 99; 100; 101; 102; 103; 104] /\
  reads (trace (after_input escape_twenty)) =
    [(Timed 20, 27); (NonBlocking, 97); (NonBlocking, 98); (NonBlocking, 99);
     (NonBlocking, 100); (NonBlocking, 101); (NonBlocking, 102);
     (NonBlocking, 103); (NonBlocking, 104)] /\
  pending (after_input escape_twenty) =
    [105; 106; 107; 108; 109; 110; 111; 112; 113; 114; 115; 116].
Proof. vm_compute. auto. Qed.

(** Escape alone: one key is handled. *)
Example escape_alone :
  keys_handled (trace (after_input [27])) = [27].
Proof. vm_compute. reflexivity. Qed.

(** Escape and x, both waiting: two keys are handled, in order. *)
Example alt_chord :
  keys_handled (trace (after_input [27; 120])) = [27; 120].
Proof. vm_compute. reflexivity. Qed.

(** A read that finds nothing between two codes is dropped. *)
Example no_key_is_dropped :
  keys_handled (trace (after_input [195; -1; 164])) = [195; 164].
Proof. vm_compute. reflexivity. Qed.




(** C3, as the specification words it, fails on the tab key, which the
    widget consumes: the key has been appended all the same. *)
Lemma consumed_key_not_appended_fails :
  ~ consumed_key_not_appended 9 (started []).
Proof.
  intros H.
  assert (Hc : fst (offer_key 9 (started [])) = true) by (vm_compute; reflexivity).
  assert (Hr : handle_key 9 (started []) = Normal (after_key 9))
    by (vm_compute; reflexivity).
  apply (H Hc _ Hr).
  assert (Ha : added (trace (started [])) (trace (after_key 9))
               = [call_key_append 9; call_press 9 true])
    by (vm_compute; reflexivity).
  rewrite Ha. left. reflexivity.
Qed.

(** The key buffer of the concrete collaborators holds the consumed
    key. *)
Example consumed_key_in_keybuffer :
  keys (keybuffer (ext (started []))) = [] /\
  keys (keybuffer (ext (after_key 9))) = [9].
Proof. vm_compute. auto. Qed.

(** The tab key, which the widget consumes. *)
Lemma consumed_key_stops_after_append_witness :
  fst (press 9 (recorded 9 (ext (started [])))) = true /\
  exists s' : UI Fm,
    handle_key 9 (started []) = Normal s' /\
    trace s' = trace (started [])
               ++ (match hint with Some _ => [call_hint] | None => [] end)
               ++ [call_key_append 9; call_press 9 true] /\
    ext s' = snd (press 9 (recorded 9 (ext (started [])))).
Proof.
  assert (Hc : fst (press 9 (recorded 9 (ext (started [])))) = true)
    by (vm_compute; reflexivity).
  exact (conj Hc (consumed_key_stops_after_append 9 (started []) Hc)).
Defined.


Example three_calls_back_to_back :
  count is_setup (trace (Nat.iter 3 initialize (session []))) = 1%nat.
Proof. vm_compute. reflexivity. Qed.


(** An ordinary key keeps the load mode as well, here with load mode
    on. *)
Example ordinary_key_keeps_load_mode :
  load_mode (state_of (handle_input (set_load_mode true (started [106])))) = true.
Proof. vm_compute. reflexivity. Qed.

(** C6, as the specification words it, fails on the key q, bound to a
    command that raises [SystemExit]: [except Exception] does not catch
    it, it leaves [handle_key], and nothing is notified. *)
Lemma raised_exception_is_reported_fails :
  ~ raised_exception_is_reported 113 (started []).
Proof.
  intros H.
  assert (Ho : offer_key 113 (started []) = (false, offered 113))
    by (vm_compute; reflexivity).
  assert (Hf : kbuf_failure (fm_hide_bookmarks (ext (offered 113))) = false)
    by (vm_compute; reflexivity).
  assert (Hc : kbuf_command (ext (offered 113)) = Some quit)
    by (vm_compute; reflexivity).
  destruct (H (offered 113) quit (fun x => Raised SystemExit x) SystemExit
              (at_call 113 quit) Ho Hf Hc eq_refl eq_refl) as (s' & Hn & _).
  assert (Hp : handle_key 113 (started []) = Propagated SystemExit (after_key 113))
    by (vm_compute; reflexivity).
  rewrite Hp in Hn. discriminate Hn.
Qed.

(** What the session holds after the key q, and after Escape and q: the
    lookahead that the exception interrupts leaves load mode on. *)
Example quit_leaves_handle_key :
  handle_key 113 (started []) = Propagated SystemExit (after_key 113) /\
  notified (trace (after_key 113)) = [] /\
  handle_input (started [27; 113]) = Propagated SystemExit (after_input [27; 113]) /\
  load_mode (after_input [27; 113]) = true.
Proof. vm_compute. auto. Qed.

(** The key x is bound to a command that raises [Exception]. *)
Lemma command_exception_is_reported_witness :
  exists s' : UI Fm,
    handle_key 120 (started []) = Normal s' /\
    notified (trace s') = notified (trace (started [])) ++ [Exception "boom"] /\
    count is_kbuf_clear (trace s') =
      (count is_kbuf_clear (trace (started []))
       + (if kbuf_done (fm_notify (Exception "boom") (at_call 120 broken))
          then 1 else 0))%nat /\
    trace s' =
      trace (offered 120)
        ++ [call_hide_bookmarks; call_function (Some (Exception "boom"));
            call_notify (Exception "boom")]
        ++ (if kbuf_done (fm_notify (Exception "boom") (at_call 120 broken))
            then [call_kbuf_clear] else []) /\
    ext s' = (if kbuf_done (fm_notify (Exception "boom") (at_call 120 broken))
              then kbuf_clear (fm_notify (Exception "boom") (at_call 120 broken))
              else fm_notify (Exception "boom") (at_call 120 broken)).
Proof.
  assert (Ho : offer_key 120 (started []) = (false, offered 120))
    by (vm_compute; reflexivity).
  assert (Hf : kbuf_failure (fm_hide_bookmarks (ext (offered 120))) = false)
    by (vm_compute; reflexivity).
  assert (Hc : kbuf_command (ext (offered 120)) = Some broken)
    by (vm_compute; reflexivity).
  exact (command_exception_is_reported 120 (started []) (offered 120) broken
           (fun x => Raised (Exception "boom") x) (Exception "boom")
           (at_call 120 broken) Ho Hf Hc eq_refl eq_refl eq_refl).
Defined.

(** What the session holds after the key x: one notification, an empty
    key buffer. *)
Example exception_with_done :
  handle_key 120 (started []) = Normal (after_key 120) /\
  notifications (ext (after_key 120)) = [Exception "boom"] /\
  count is_kbuf_clear (trace (after_key 120)) = 1%nat /\
  keys (keybuffer (ext (after_key 120))) = [].
Proof. vm_compute. auto. Qed.

(** The key X is bound to the same command, with [done] unset: the
    error is reported and the key buffer keeps its keys. *)
Example exception_without_done :
  handle_key 88 (started []) = Normal (after_key 88) /\
  notified (trace (after_key 88)) = [Exception "boom"] /\
  count is_kbuf_clear (trace (after_key 88)) = 0%nat /\
  keys (keybuffer (ext (after_key 88))) = [88].
Proof. vm_compute. auto. Qed.

(** The key n is bound to a command without a function. *)
Lemma command_without_function_clears_witness :
  exists s' : UI Fm,
    handle_key 110 (started []) = Normal s' /\
    trace s' = trace (offered 110) ++ [call_hide_bookmarks; call_kbuf_clear] /\
    ext s' = kbuf_clear (env_set_cmd unbound (fm_hide_bookmarks (ext (offered 110)))) /\
    count is_function (trace s') = count is_function (trace (started [])) /\
    notified (trace s') = notified (trace (started [])).
Proof.
  assert (Ho : offer_key 110 (started []) = (false, offered 110))
    by (vm_compute; reflexivity).
  assert (Hf : kbuf_failure (fm_hide_bookmarks (ext (offered 110))) = false)
    by (vm_compute; reflexivity).
  assert (Hc : kbuf_command (ext (offered 110)) = Some unbound)
    by (vm_compute; reflexivity).
  exact (command_without_function_clears 110 (started []) (offered 110) unbound
           Ho Hf Hc eq_refl).
Defined.

(** The key buffer is cleared although its [done] flag is not set. *)
Example command_without_function_run :
  done (keybuffer (ext (offered 110))) = false /\
  keys (keybuffer (ext (offered 110))) = [110] /\
  keys (keybuffer (ext (after_key 110))) = [] /\
  moves (ext (after_key 110)) = 0%nat /\
  notifications (ext (after_key 110)) = [].
Proof. vm_compute. auto 10. Qed.

(** The title of the session after its first [initialize]. *)
Lemma draw_title_truncated_witness :
  title_path (env_cwd_path (container_draw (ext (started []))))
    (env_home_path (container_draw (ext (started []))))
    (settings_shorten_title (container_draw (ext (started [])))) = "c/d"%string /\
  trace (draw (started [])) =
    trace (started []) ++ [win_touchwin; call_container_draw;
                           stdout_write (title_sequence "c/d"); win_refresh].
Proof.
  assert (Hd : _draw_title (started []) = true) by (vm_compute; reflexivity).
  assert (Hu : settings_update_title (container_draw (ext (started []))) = true)
    by (vm_compute; reflexivity).
  assert (Hc : env_cwd_path (container_draw (ext (started [])))
               = "/home/alice/a/b/c/d"%string) by (vm_compute; reflexivity).
  assert (Hh : env_home_path (container_draw (ext (started [])))
               = "/home/alice"%string) by (vm_compute; reflexivity).
  assert (Hn : settings_shorten_title (container_draw (ext (started []))) = 2)
    by (vm_compute; reflexivity).
  exact (draw_title_truncated (started []) Hd Hu Hc Hh Hn).
Defined.

(** Without the shortening, within the depth, and outside the home
    directory. *)
Example title_paths :
  title_path "/home/alice/a/b/c/d" "/home/alice" 0 = "~/a/b/c/d"%string /\
  title_path "/home/alice/a" "/home/alice" 2 = "~/a"%string /\
  title_path "/etc/X11/xorg.conf.d" "/home/alice" 1 = "xorg.conf.d"%string /\
  title_path "/etc" "/home/alice" 1 = "/etc"%string /\
  title_path "/home/alice" "/home/alice" 3 = "~"%string.
Proof. vm_compute. auto 10. Qed.

(** Suspended twice after the first [initialize]. *)
Example suspend_twice :
  term (suspend (suspend (started []))) = term (suspend (started [])) /\
  term (suspend (started [])) =
    mkTerminal false false false false true None 1 true 0 0 true true.
Proof. vm_compute. auto. Qed.

End MockRuns.

(** ** The further properties on the concrete collaborators *)

Module MoreRuns.

Import Mock MockMore.

(** An idle device: the read answers -1. *)
Lemma ignored_code_is_dropped_witness :
  hd (-1) (pending (started [])) <= 0 /\
  exists s' : UI Fm,
    handle_input (started []) = Normal s' /\
    ext s' = ext (started []) /\
    term s' = term (started []) /\
    load_mode s' = load_mode (started []) /\
    trace s' =
      trace (started [])
        ++ win_getch (read_mode (term (started []))) (hd (-1) (pending (started [])))
           :: (if settings_flushinput (ext (started [])) then [curses_flushinp] else []).
Proof.
  assert (H : hd (-1) (pending (started [])) <= 0) by (vm_compute; discriminate).
  exact (conj H (ignored_code_is_dropped (started []) H)).
Defined.

(** The key j with k waiting behind it. *)
Lemma ordinary_key_is_handled_once_witness :
  hd (-1) (pending (started [106; 107])) = 106 /\
  handle_input (started [106; 107]) = handle_key 106 (after_read (started [106; 107])) /\
  keys_handled (trace (state_of (handle_input (started [106; 107])))) =
    keys_handled (trace (started [106; 107])) ++ [106] /\
  reads (trace (state_of (handle_input (started [106; 107])))) =
    reads (trace (started [106; 107]))
      ++ [(read_mode (term (started [106; 107])), 106)].
Proof.
  assert (H : hd (-1) (pending (started [106; 107])) = 106) by (vm_compute; reflexivity).
  assert (H0 : 0 < 106) by lia.
  assert (H1 : 106 <> 27) by lia.
  assert (H2 : 106 <> 195) by lia.
  exact (conj H (ordinary_key_is_handled_once (started [106; 107]) 106 H H0 H1 H2)).
Defined.


Example stale_keys_are_flushed :
  pending (state_of (handle_input (flushing [106; 107; 108]))) = [] /\
  pending (state_of (handle_input (started [106; 107; 108]))) = [107; 108] /\
  pending (state_of (handle_input (flushing escape_twenty))) =
    [105; 106; 107; 108; 109; 110; 111; 112; 113; 114; 115; 116].
Proof. vm_compute. auto. Qed.



Example interrupted_lookahead_run :
  load_mode (started [27; 113; 97]) = false /\
  keys_handled (trace (after_input [27; 113; 97])) = [27; 113] /\
  read_mode (term (after_input [27; 113; 97])) = NonBlocking.
Proof. vm_compute. auto. Qed.

(** The key a is bound to nothing: the key buffer reports a failure. *)
Lemma failed_sequence_is_discarded_witness :
  exists s' : UI Fm,
    handle_key 97 (started []) = Normal s' /\
    trace s' = trace (offered 97) ++ [call_hide_bookmarks; call_kbuf_clear] /\
    ext s' = kbuf_clear (fm_hide_bookmarks (ext (offered 97))) /\
    count is_function (trace s') = count is_function (trace (started [])) /\
    notified (trace s') = notified (trace (started [])).
Proof.
  assert (Ho : offer_key 97 (started []) = (false, offered 97))
    by (vm_compute; reflexivity).
  assert (Hf : kbuf_failure (fm_hide_bookmarks (ext (offered 97))) = true)
    by (vm_compute; reflexivity).
  exact (failed_sequence_is_discarded 97 (started []) (offered 97) Ho Hf).
Defined.

(** The key g starts the sequence gg. *)
Lemma unfinished_sequence_is_kept_witness :
  exists s' : UI Fm,
    handle_key 103 (started []) = Normal s' /\
    trace s' = trace (offered 103) ++ [call_hide_bookmarks] /\
    ext s' = fm_hide_bookmarks (ext (offered 103)) /\
    count is_kbuf_clear (trace s') = count is_kbuf_clear (trace (started [])).
Proof.
  assert (Ho : offer_key 103 (started []) = (false, offered 103))
    by (vm_compute; reflexivity).
  assert (Hf : kbuf_failure (fm_hide_bookmarks (ext (offered 103))) = false)
    by (vm_compute; reflexivity).
  assert (Hc : kbuf_command (ext (offered 103)) = None)
    by (vm_compute; reflexivity).
  exact (unfinished_sequence_is_kept 103 (started []) (offered 103) Ho Hf Hc).
Defined.

Example sequence_gg :
  keys (keybuffer (ext (after_key 103))) = [103] /\
  lifetime [HandleKey 103; HandleKey 103] (started [])
    = Normal (state_of (lifetime [HandleKey 103; HandleKey 103] (started []))) /\
  moves (ext (state_of (lifetime [HandleKey 103; HandleKey 103] (started [])))) = 1%nat /\
  keys (keybuffer (ext (state_of (lifetime [HandleKey 103; HandleKey 103] (started [])))))
    = [].
Proof. vm_compute. auto. Qed.

(** The key j is bound to a command that returns. *)
Lemma command_runs_then_clears_when_done_witness :
  exists s' : UI Fm,
    handle_key 106 (started []) = Normal s' /\
    trace s' =
      trace (offered 106) ++ [call_hide_bookmarks; call_function None]
        ++ (if kbuf_done (move (at_call 106 move_down)) then [call_kbuf_clear] else []) /\
    ext s' = (if kbuf_done (move (at_call 106 move_down))
              then kbuf_clear (move (at_call 106 move_down))
              else move (at_call 106 move_down)) /\
    count is_function (trace s') = (count is_function (trace (started [])) + 1)%nat /\
    notified (trace s') = notified (trace (started [])).
Proof.
  assert (Ho : offer_key 106 (started []) = (false, offered 106))
    by (vm_compute; reflexivity).
  assert (Hf : kbuf_failure (fm_hide_bookmarks (ext (offered 106))) = false)
    by (vm_compute; reflexivity).
  assert (Hc : kbuf_command (ext (offered 106)) = Some move_down)
    by (vm_compute; reflexivity).
  exact (command_runs_then_clears_when_done 106 (started []) (offered 106) move_down
           (fun x => Returned (move x)) (move (at_call 106 move_down))
           Ho Hf Hc eq_refl eq_refl).
Defined.

(** The key q is bound to a command that raises [SystemExit]. *)
Lemma other_exception_leaves_handle_key_witness :
  exists s' : UI Fm,
    handle_key 113 (started []) = Propagated SystemExit s' /\
    notified (trace s') = notified (trace (started [])) /\
    count is_kbuf_clear (trace s') = count is_kbuf_clear (trace (started [])) /\
    ext s' = at_call 113 quit.
Proof.
  assert (Ho : offer_key 113 (started []) = (false, offered 113))
    by (vm_compute; reflexivity).
  assert (Hf : kbuf_failure (fm_hide_bookmarks (ext (offered 113))) = false)
    by (vm_compute; reflexivity).
  assert (Hc : kbuf_command (ext (offered 113)) = Some quit)
    by (vm_compute; reflexivity).
  exact (other_exception_leaves_handle_key 113 (started []) (offered 113) quit
           (fun x => Raised SystemExit x) SystemExit (at_call 113 quit)
           Ho Hf Hc eq_refl eq_refl eq_refl).
Defined.


Lemma setup_follows_latch_witness :
  is_set_up (session []) = false /\
  count is_setup (trace (state_of (lifetime cut_short (session [])))) =
    (count is_setup (trace (session []))
     + (if is_set_up (state_of (lifetime cut_short (session []))) then 1 else 0))%nat.
Proof.
  assert (H : is_set_up (session []) = false) by reflexivity.
  exact (conj H (setup_follows_latch cut_short (session []) H)).
Defined.

(** Without a call of [initialize] the latch stays unset and [setup] is
    not called. *)
Example no_setup_without_initialize :
  is_set_up (state_of (lifetime [Draw; HandleKey 106; Suspend] (session []))) = false /\
  count is_setup (trace (state_of (lifetime [Draw; HandleKey 106; Suspend] (session []))))
    = 0%nat.
Proof. vm_compute. auto. Qed.

Lemma load_mode_round_trip_witness :
  load_mode (started []) = false /\
  cbreak (term (started [])) = true /\
  halfdelay (term (started [])) = Some 20 /\
  term (set_load_mode false (set_load_mode true (started [])))
    = Curses.set_nodelay 0 (term (started [])) /\
  load_mode (set_load_mode false (set_load_mode true (started []))) = false /\
  read_mode (term (set_load_mode true (started []))) = NonBlocking /\
  read_mode (term (set_load_mode false (set_load_mode true (started [])))) = Timed 20.
Proof.
  assert (H1 : load_mode (started []) = false) by (vm_compute; reflexivity).
  assert (H2 : cbreak (term (started [])) = true) by (vm_compute; reflexivity).
  assert (H3 : halfdelay (term (started [])) = Some 20) by (vm_compute; reflexivity).
  exact (conj H1 (conj H2 (conj H3 (load_mode_round_trip (started []) H1 H2 H3)))).
Defined.

(** A terminal without a title, two calls of [draw], the title setting
    on. *)
Lemma no_title_without_capability_witness :
  _draw_title (untitled []) = false /\
  _draw_title (state_of (lifetime two_draws (untitled []))) = false /\
  count is_stdout_write (trace (state_of (lifetime two_draws (untitled [])))) =
    count is_stdout_write (trace (untitled [])).
Proof.
  assert (H : _draw_title (untitled []) = false) by reflexivity.
  exact (conj H (no_title_without_capability two_draws (untitled []) H)).
Defined.

(** With a title the same life writes it twice. *)
Example two_titles :
  count is_stdout_write (trace (state_of (lifetime two_draws (session [])))) = 2%nat /\
  draws two_draws = 2%nat.
Proof. vm_compute. auto. Qed.


(** Four directories below the home directory, with a depth of two. *)
Lemma title_path_shortened_witness :
  0 < 2 /\
  (Z.to_nat 2 < occurrences Str.sep (collapse_home "/home/alice/a/b/c/d" "/home/alice"))%nat /\
  exists head : string,
    collapse_home "/home/alice/a/b/c/d" "/home/alice"
      = joined head (title_path "/home/alice/a/b/c/d" "/home/alice" 2) /\
    occurrences Str.sep (title_path "/home/alice/a/b/c/d" "/home/alice" 2)
      = (Z.to_nat 2 - 1)%nat.
Proof.
  assert (H1 : 0 < 2) by lia.
  assert (H2 : (Z.to_nat 2
                < occurrences Str.sep (collapse_home "/home/alice/a/b/c/d" "/home/alice"))%nat)
    by (vm_compute; repeat constructor).
  exact (conj H1 (conj H2 (title_path_shortened "/home/alice/a/b/c/d" "/home/alice" 2 H1 H2))).
Defined.

(** The home directory, a directory below it, and a neighbour of it. *)
Example home_prefixes :
  title_path "/home/alice" "/home/alice" 0 = "~"%string /\
  title_path "/home/alice/docs" "/home/alice" 0 = "~/docs"%string /\
  title_path "/home/alice2/docs" "/home/alice" 0 = "~2/docs"%string /\
  title_path "/home/bob/docs" "/home/alice" 0 = "/home/bob/docs"%string.
Proof. vm_compute. auto. Qed.

(** Load mode in a life of the session. *)
Lemma reached_polls_witness :
  load_mode (session []) = false /\
  load_mode_polls (state_of (lifetime two_draws (session []))).
Proof.
  assert (H : load_mode (session []) = false) by reflexivity.
  exact (conj H (reached_polls two_draws (session []) H)).
Defined.


(** Read while the session is suspended, Escape brings the half-delay
    mode back: the premise on the terminal is needed. *)
Example escape_while_suspended :
  read_mode (term (suspend (started [27]))) = Blocking /\
  read_mode (term (state_of (handle_input (suspend (started [27]))))) = Timed 20.
Proof. vm_compute. auto. Qed.

End MoreRuns.
